(** * simEd: stream-partitioned uniform generation and inversion-based variates

    A shallow embedding of the Python package [simEd]:
    - [simEd/utils/_error_checks.py]  ([_checkTypeMap], [_checkType], [_checkRange]),
    - [simEd/generators/rng_mt19937.py]  (class [rng]),
    - [simEd/generators/generators.py]  ([set_seed], [_generateUniforms]),
    - [simEd/generators/generators_continuous.py]  ([vunif], [vexp], [vnorm]),
    - [simEd/generators/generators_discrete.py]  ([vbinom]).

    The class-level list [rng._streams] is the only mutable state; it is
    threaded explicitly through a state-and-exception monad.  numpy's
    bit generator and scipy's quantile functions are libraries outside the
    package: they enter as interfaces ([BitGenerator], [Quantiles]). *)

From Stdlib Require Import ZArith QArith Lia Bool String.
From stdpp Require Import base list.

Local Open Scope Z_scope.

(** ** Python values and exceptions *)

(** A Python [float]: a finite value (every finite double is a rational), an
    infinity or NaN.  Only order comparisons are ever made on parameters of
    this kind, and Python compares [int] and [float] by exact value. *)
Inductive pyfloat : Type :=
| FFinite (q : Q)
| FInf (negative : bool)
| FNaN.

(** The objects the model covers: [None] and objects whose exact type is
    [bool], [int], [float] or [str].  numpy scalars, instances of
    subclasses and other objects are outside it. *)
Inductive pyobj : Type :=
| PyNone
| PyBool (b : bool)
| PyInt (z : Z)
| PyFloat (f : pyfloat)
| PyStr (s : string).

(** The exception classes the modelled code can raise. *)
Inductive exn : Type :=
| TypeError
| ValueError
| KeyError
| IndexError
| AttributeError
| OverflowError.

(** Type objects: the builtins and the numpy scalar classes that
    [_checkTypeMap] mentions. *)
Inductive pytype : Type :=
| T_int | T_float | T_bool | T_str | T_complex | T_object | T_NoneType
| T_np_integer | T_np_floating | T_np_complexfloating
| T_np_bool | T_np_str | T_np_object.

Definition pytype_eqb (a b : pytype) : bool :=
  match a, b with
  | T_int, T_int | T_float, T_float | T_bool, T_bool | T_str, T_str
  | T_complex, T_complex | T_object, T_object | T_NoneType, T_NoneType
  | T_np_integer, T_np_integer | T_np_floating, T_np_floating
  | T_np_complexfloating, T_np_complexfloating
  | T_np_bool, T_np_bool | T_np_str, T_np_str | T_np_object, T_np_object => true
  | _, _ => false
  end.

(** [type(obj)] *)
Definition type_of (obj : pyobj) : pytype :=
  match obj with
  | PyNone => T_NoneType
  | PyBool _ => T_bool
  | PyInt _ => T_int
  | PyFloat _ => T_float
  | PyStr _ => T_str
  end.

(** [issubclass] on the builtin classes of [pyobj] values:
    [bool <: int <: object], every class is below [object]. *)
Definition issubclass (c t : pytype) : bool :=
  match t with
  | T_object => true
  | T_int => match c with T_int | T_bool => true | _ => false end
  | _ => pytype_eqb c t
  end.

(** [isinstance(obj, t)] *)
Definition isinstance (obj : pyobj) (t : pytype) : bool :=
  issubclass (type_of obj) t.

(** [isinstance(obj, (t1, t2))] *)
Definition isinstance2 (obj : pyobj) (t1 t2 : pytype) : bool :=
  isinstance obj t1 || isinstance obj t2.

(** Truth value of an object, as [if obj:] takes it. *)
Definition truthy (obj : pyobj) : bool :=
  match obj with
  | PyNone => false
  | PyBool b => b
  | PyInt z => negb (z =? 0)
  | PyFloat (FFinite q) => negb (Qeq_bool q 0)
  | PyFloat _ => true
  | PyStr s => negb (String.eqb s EmptyString)
  end.

(** The integer an [int] (or [bool]) object stands for, where the code uses
    it as a number, a count or a list index. *)
Definition int_value (obj : pyobj) : option Z :=
  match obj with
  | PyInt z => Some z
  | PyBool b => Some (if b then 1 else 0)
  | _ => None
  end.

(** The numeric value of an [int], [bool] or [float] object. *)
Definition num_value (obj : pyobj) : option pyfloat :=
  match obj with
  | PyInt z => Some (FFinite (inject_Z z))
  | PyBool b => Some (FFinite (if b then 1 else 0)%Q)
  | PyFloat f => Some f
  | _ => None
  end.

(** ** Fallible pure code: [exn + A] *)

Definition result (A : Type) : Type := (exn + A)%type.

Definition ok {A} (a : A) : result A := inr a.
Definition throw {A} (e : exn) : result A := inl e.

(** [float(z)] raises [OverflowError] when [z] would round, to nearest, beyond
    the largest double [2^1024 - 2^971]. *)
Definition int_too_large_for_float (z : Z) : bool :=
  2 ^ 1024 - 2 ^ 970 <=? Z.abs z.

(** Whether the subtraction [a - b] raises.  Two [int]s (or [bool]s) subtract
    exactly; two [float]s subtract as doubles and never raise; an [int] met
    by a [float] is first converted with [float(z)]; anything else has no
    subtraction.  The difference itself is not computed here. *)
Definition py_sub_outcome (a b : pyobj) : result unit :=
  match a, b with
  | PyFloat _, PyFloat _ => ok tt
  | PyFloat _, _ =>
      match int_value b with
      | Some z => if int_too_large_for_float z then throw OverflowError else ok tt
      | None => throw TypeError
      end
  | _, PyFloat _ =>
      match int_value a with
      | Some z => if int_too_large_for_float z then throw OverflowError else ok tt
      | None => throw TypeError
      end
  | _, _ =>
      match int_value a, int_value b with
      | Some _, Some _ => ok tt
      | _, _ => throw TypeError
      end
  end.

Definition rbind {A B} (r : result A) (k : A -> result B) : result B :=
  match r with
  | inl e => inl e
  | inr a => k a
  end.

Declare Scope result_scope.
Delimit Scope result_scope with result.
Notation "x <-? r ;; k" := (rbind r (fun x => k))
  (at level 100, r at next level, right associativity) : result_scope.
Notation "r ;;? k" := (rbind r (fun _ => k))
  (at level 100, right associativity) : result_scope.

(** ** [simEd/utils/_error_checks.py] *)

Module ErrorChecks.

Local Open Scope result_scope.

(** The dictionary [type_map] of [_checkTypeMap], in source order. *)
Definition type_map : list (pytype * pytype) :=
  [ (T_np_integer, T_int);
    (T_np_floating, T_float);
    (T_np_complexfloating, T_complex);
    (T_np_bool, T_bool);
    (T_np_str, T_str);
    (T_np_object, T_object);
    (T_float, T_int);
    (T_int, T_int) ].

(** [k in type_map] *)
Definition type_map_mem (k : pytype) : bool :=
  existsb (fun kv => pytype_eqb (fst kv) k) type_map.

(** [type_map[k]]: the subscript raises [KeyError] on a missing key. *)
Definition type_map_get (k : pytype) : result pytype :=
  match List.find (fun kv => pytype_eqb (fst kv) k) type_map with
  | Some kv => ok (snd kv)
  | None => throw KeyError
  end.

(** [_checkTypeMap(obj, type_)] returns [bad_type]. *)
Definition _checkTypeMap (obj : pyobj) (type_ : pytype) : result bool :=
  if type_map_mem type_ || type_map_mem (type_of obj) then
    mapped <-? type_map_get type_ ;;
    ok (negb (isinstance2 obj type_ mapped))
  else
    ok (negb (isinstance obj type_)).

(** The second argument of [_checkType]: a type, or a [types.UnionType]
    with its [__args__]. *)
Inductive type_arg : Type :=
| Ty (t : pytype)
| UnionType (args : list pytype).

(** The loop [for t in type_.__args__: good_type |= not _checkTypeMap(obj, t)]. *)
Fixpoint union_good (obj : pyobj) (args : list pytype) (good_type : bool)
  : result bool :=
  match args with
  | [] => ok good_type
  | t :: rest =>
      bad <-? _checkTypeMap obj t ;;
      union_good obj rest (good_type || negb bad)
  end.

(** [_checkType(obj, type_)] *)
Definition _checkType (obj : pyobj) (type_ : type_arg) : result unit :=
  bad_type <-? match type_ with
               | UnionType args =>
                   good_type <-? union_good obj args false ;;
                   ok (negb good_type)
               | Ty t => _checkTypeMap obj t
               end ;;
  if bad_type then throw TypeError else ok tt.

(** Order comparisons of Python floats; every comparison with NaN is false. *)
Definition float_lt (x y : pyfloat) : bool :=
  match x, y with
  | FNaN, _ | _, FNaN => false
  | FInf true, FInf true => false
  | FInf true, _ => true
  | _, FInf true => false
  | FInf false, _ => false
  | _, FInf false => true
  | FFinite p, FFinite q => negb (Qle_bool q p)
  end.

Definition float_le (x y : pyfloat) : bool :=
  match x, y with
  | FNaN, _ | _, FNaN => false
  | FInf true, _ => true
  | _, FInf true => false
  | _, FInf false => true
  | FInf false, _ => false
  | FFinite p, FFinite q => Qle_bool p q
  end.

(** [a < b], [a <= b], [a > b], [a >= b] on objects; an operand that is not
    a number makes the comparison raise. *)
Definition py_lt (a b : pyobj) : result bool :=
  match num_value a, num_value b with
  | Some x, Some y => ok (float_lt x y)
  | _, _ => throw TypeError
  end.

Definition py_le (a b : pyobj) : result bool :=
  match num_value a, num_value b with
  | Some x, Some y => ok (float_le x y)
  | _, _ => throw TypeError
  end.

Definition py_gt (a b : pyobj) : result bool := py_lt b a.
Definition py_ge (a b : pyobj) : result bool := py_le b a.

(** [_checkRange(obj, min_, max_, msg, include_min, include_max)].  The
    message only decorates the [ValueError]; exceptions are modelled by
    class. *)
Definition _checkRange (obj : pyobj) (min_ max_ : option pyobj)
    (include_min include_max : bool) : result unit :=
  (if min_ is Some _ then _checkType obj (UnionType [T_int; T_float]) else ok tt) ;;?
  (if max_ is Some _ then _checkType obj (UnionType [T_int; T_float]) else ok tt) ;;?
  _checkType (PyBool include_min) (Ty T_bool) ;;?
  _checkType (PyBool include_max) (Ty T_bool) ;;?
  (match min_ with
   | Some lo =>
       below <-? (if include_min then py_lt obj lo else py_le obj lo) ;;
       if below then throw ValueError else ok tt
   | None => ok tt
   end) ;;?
  (match max_ with
   | Some hi =>
       above <-? (if include_max then py_gt obj hi else py_ge obj hi) ;;
       if above then throw ValueError else ok tt
   | None => ok tt
   end).

End ErrorChecks.

(** ** Stateful fallible code: the stream table is threaded through

    A raised exception aborts the computation and leaves the state as the
    code had mutated it up to that point. *)

Definition state_exn (S A : Type) : Type := S -> result A * S.

Definition ret {S A} (a : A) : state_exn S A := fun s => (inr a, s).

Definition raise {S A} (e : exn) : state_exn S A := fun s => (inl e, s).

Definition bind {S A B} (m : state_exn S A) (k : A -> state_exn S B)
  : state_exn S B :=
  fun s =>
    match m s with
    | (inl e, s') => (inl e, s')
    | (inr a, s') => k a s'
    end.

(** Pure fallible code run inside the stateful monad. *)
Definition lift {S A} (r : result A) : state_exn S A := fun s => (r, s).

Declare Scope state_exn_scope.
Delimit Scope state_exn_scope with state_exn.
Notation "x <- m ;; k" := (bind m (fun x => k))
  (at level 100, m at next level, right associativity) : state_exn_scope.
Notation "m ;; k" := (bind m (fun _ => k))
  (at level 100, right associativity) : state_exn_scope.

(** ** The libraries outside the package *)

(** numpy's bit generator, as [rng] uses it.
    - [seeded s] is [MT19937(SeedSequence(s))] for an integer [s]; numpy may
      refuse a seed by raising.
    - [jumped g] is [g.jumped()]: a new bit generator, [g] itself is not
      advanced.
    - [next_double g] is one draw of the standard uniform: the numerator [k]
      of the double [k / 2^53], and the advanced state.  numpy documents the
      draw as lying in the half-open interval that includes 0. *)
Class BitGenerator (G : Type) : Type := {
  seeded : Z -> result G;
  jumped : G -> G;
  next_double : G -> Z * G;
  next_double_range : forall g, 0 <= fst (next_double g) < 2 ^ 53
}.

(** [numpy.random.Generator(bit_generator)]: a wrapper that owns the bit
    generator it draws from. *)
Record Generator (G : Type) : Type := MkGenerator { bit_generator : G }.
Arguments MkGenerator {G} _.
Arguments bit_generator {G} _.

(** scipy's quantile functions, as the variate functions call them on one
    uniform [u]; on a list scipy applies them element by element.
    - [uniform_ppf min_ max_ u] is [uniform.ppf(u, loc=min_, scale=max_-min_)]
      once the package has evaluated [max_ - min_],
    - [expon_ppf rate u] is [expon.ppf(u, scale=1/rate)],
    - [binom_ppf size prob] is [binom.ppf(_, n=size, p=prob).astype('int')]:
      numpy raises on a [size] it cannot hold, otherwise the call maps each
      uniform to an integer,
    - [norm_ppf mean sd u] is [norm.ppf(u, loc=mean, scale=sd)]. *)
Class Quantiles : Type := {
  uniform_ppf : pyobj -> pyobj -> Q -> pyfloat;
  expon_ppf : pyobj -> Q -> pyfloat;
  binom_ppf : pyobj -> pyobj -> result (Q -> Z);
  norm_ppf : pyobj -> pyobj -> Q -> pyfloat
}.

(** A scalar or a list: what [_generateUniforms] and [.tolist()] return. *)
Inductive shape (A : Type) : Type :=
| Scalar (a : A)
| Vector (l : list A).
Arguments Scalar {A} _.
Arguments Vector {A} _.

Definition shape_map {A B} (f : A -> B) (s : shape A) : shape B :=
  match s with
  | Scalar a => Scalar (f a)
  | Vector l => Vector (map f l)
  end.

(** The values in generation order, whatever the shape. *)
Definition values {A} (s : shape A) : list A :=
  match s with
  | Scalar a => [a]
  | Vector l => l
  end.

(** A value stored in the dictionary a variate function returns. *)
Inductive dict_value (X : Type) : Type :=
| Uniforms (u : shape Q)
| Inverted (x : shape X).
Arguments Uniforms {X} _.
Arguments Inverted {X} _.

(** What a variate function returns: the variates, or the dictionary
    [{"u": u, "x": x}] with its items in insertion order. *)
Inductive variate_result (X : Type) : Type :=
| Variates (x : shape X)
| Dict (items : list (string * dict_value X)).
Arguments Variates {X} _.
Arguments Dict {X} _.

(** ** [simEd/generators/rng_mt19937.py]: class [rng] *)

(** [rng._streams]: a list whose entries are [None] until seeded. *)
Abbreviation table G := (list (option (Generator G))).

(** Code that reads and updates [rng._streams] and may raise. *)
Definition M (G A : Type) : Type := state_exn (table G) A.

Section Rng.

Context {G : Type} `{BitGenerator G}.

Local Open Scope state_exn_scope.


(** [rng._num_streams] *)
Definition _num_streams : Z := 128.

(** The class variable as the class body initialises it. *)
Definition _streams_init : table G := replicate (Z.to_nat _num_streams) None.

(** [rng.numStreams()] *)
Definition numStreams : Z := _num_streams.

(** The position a Python list subscript [l[i]] designates: a negative [i]
    counts from the end; out of bounds there is none. *)
Definition list_index (len : nat) (i : Z) : option nat :=
  let j := if i <? 0 then i + Z.of_nat len else i in
  if (0 <=? j) && (j <? Z.of_nat len) then Some (Z.to_nat j) else None.

(** [cls._streams[i]] as an expression *)
Definition streams_getitem (i : Z) : M G (option (Generator G)) :=
  fun t =>
    match list_index (length t) i with
    | Some j =>
        match t !! j with
        | Some entry => (inr entry, t)
        | None => (inl IndexError, t)
        end
    | None => (inl IndexError, t)
    end.

(** [cls._streams[i] = entry] *)
Definition streams_setitem (i : Z) (entry : option (Generator G)) : M G unit :=
  fun t =>
    match list_index (length t) i with
    | Some j => (inr tt, <[j := entry]> t)
    | None => (inl IndexError, t)
    end.

(** The loop of [rng.set_seed]: [count] iterations are left, the next one
    has index [i] and wraps [bit_generator]. *)
Fixpoint set_seed_loop (count : nat) (i : Z) (bit_generator : G) : M G unit :=
  match count with
  | O => ret tt
  | S count' =>
      streams_setitem i (Some (MkGenerator bit_generator)) ;;
      set_seed_loop count' (i + 1) (jumped bit_generator)
  end.

(** [rng.set_seed(seed)].  With [seed = None], [SeedSequence] takes fresh
    entropy from the operating system; [os_entropy] is the value it reads. *)
Definition rng_set_seed (seed : option Z) (os_entropy : Z) : M G unit :=
  let entropy := match seed with Some s => s | None => os_entropy end in
  bit_generator <- lift (seeded entropy) ;;
  set_seed_loop (Z.to_nat _num_streams) 0 bit_generator.

(** [generator.uniform(a, b)]: [a + (b - a) * next_double], advancing the
    wrapped bit generator by one draw.  On rationals the arithmetic is
    exact; for [a = 0], [b = 1], the only arguments the package passes, the
    double arithmetic is exact as well. *)
Definition Generator_uniform (gen : Generator G) (a b : Q) : Q * Generator G :=
  let (k, g') := next_double (bit_generator gen) in
  ((a + (b - a) * (k # 2 ^ 53))%Q, MkGenerator g').

(** [rng.uniform(a, b, which_stream)] *)
Definition rng_uniform (a b : Q) (which_stream : Z) : M G Q :=
  entry <- streams_getitem which_stream ;;
  match entry with
  | None => raise AttributeError
  | Some gen =>
      let (u, gen') := Generator_uniform gen a b in
      (* the generator object in the table is the one that advanced *)
      streams_setitem which_stream (Some gen') ;;
      ret u
  end.

End Rng.

(** ** [simEd/generators/generators.py] *)

Section Generators.

Context {G : Type} `{BitGenerator G}.

Local Open Scope state_exn_scope.

Import ErrorChecks.

(** An object used as an [int] (a count, a list subscript); Python raises
    [TypeError] on anything else.  After [_checkType(_, int)] the object
    always is one. *)
Definition as_int (obj : pyobj) : M G Z :=
  match int_value obj with
  | Some z => ret z
  | None => raise TypeError
  end.

(** [set_seed(seed)] *)
Definition set_seed (seed : pyobj) (os_entropy : Z) : M G unit :=
  match seed with
  | PyNone => rng_set_seed None os_entropy
  | _ =>
      lift (_checkType seed (Ty T_int)) ;;
      s <- as_int seed ;;
      rng_set_seed (Some s) os_entropy
  end.

(** One pass of the loop body of [_generateUniforms]: draw, complement if
    antithetic. *)
Definition draw_one (stream : Z) (antithetic : bool) : M G Q :=
  u_val <- rng_uniform 0 1 stream ;;
  ret (if antithetic then (1 - u_val)%Q else u_val).

(** [for _ in range(n): ...; u.append(u_val)] with [count] iterations left
    and the list [u] built so far. *)
Fixpoint draw_loop (count : nat) (stream : Z) (antithetic : bool) (u : list Q)
  : M G (list Q) :=
  match count with
  | O => ret u
  | S count' =>
      u_val <- draw_one stream antithetic ;;
      draw_loop count' stream antithetic (u ++ [u_val])
  end.

(** [_generateUniforms(n, stream, antithetic)] *)
Definition _generateUniforms (n stream : Z) (antithetic : bool)
  : M G (shape Q) :=
  if n =? 1 then
    u <- draw_one stream antithetic ;;
    ret (Scalar u)
  else
    u <- draw_loop (Z.to_nat n) stream antithetic [] ;;
    ret (Vector u).

(** ** [generators_continuous.py] and [generators_discrete.py] *)

Context `{Quantiles}.

(** [_generateUniforms(n, stream, antithetic)] as the variate functions
    call it, on the objects they were given. *)
Definition generate (n stream antithetic : pyobj) : M G (shape Q) :=
  n' <- as_int n ;;
  stream' <- as_int stream ;;
  _generateUniforms n' stream' (truthy antithetic).

(** [if as_dict: return {"u": u, "x": x}] / [return x] *)
Definition deliver {X} (as_dict : pyobj) (u : shape Q) (x : shape X)
  : M G (variate_result X) :=
  if truthy as_dict
  then ret (Dict [("u"%string, Uniforms u); ("x"%string, Inverted x)])
  else ret (Variates x).

(** [vunif(n, min_, max_, stream, antithetic, as_dict)] *)
Definition vunif (n min_ max_ stream antithetic as_dict : pyobj)
  : M G (variate_result pyfloat) :=
  lift (_checkType n (Ty T_int)) ;;
  lift (_checkType stream (Ty T_int)) ;;
  lift (_checkType min_ (Ty T_float)) ;;
  lift (_checkType max_ (Ty T_float)) ;;
  lift (_checkType antithetic (Ty T_bool)) ;;
  lift (_checkType as_dict (Ty T_bool)) ;;
  let max_stream := numStreams - 1 in
  lift (_checkRange n (Some (PyInt 1)) None true true) ;;
  lift (_checkRange max_ (Some min_) None true true) ;;
  lift (_checkRange stream (Some (PyInt 0)) (Some (PyInt max_stream)) true true) ;;
  u <- generate n stream antithetic ;;
  (* [scale = max_ - min_] is evaluated here, before scipy is called *)
  lift (py_sub_outcome max_ min_) ;;
  let x := shape_map (uniform_ppf min_ max_) u in
  deliver as_dict u x.

(** [vexp(n, rate, stream, antithetic, as_dict)] *)
Definition vexp (n rate stream antithetic as_dict : pyobj)
  : M G (variate_result pyfloat) :=
  lift (_checkType n (Ty T_int)) ;;
  lift (_checkType stream (Ty T_int)) ;;
  lift (_checkType rate (UnionType [T_float; T_int])) ;;
  lift (_checkType antithetic (Ty T_bool)) ;;
  lift (_checkType as_dict (Ty T_bool)) ;;
  let max_stream := numStreams - 1 in
  lift (_checkRange n (Some (PyInt 1)) None true true) ;;
  lift (_checkRange rate (Some (PyInt 0)) None false true) ;;
  lift (_checkRange stream (Some (PyInt 0)) (Some (PyInt max_stream)) true true) ;;
  u <- generate n stream antithetic ;;
  let x := shape_map (expon_ppf rate) u in
  deliver as_dict u x.

(** [vnorm(n, mean, sd, stream, antithetic, as_dict)].  The loop over
    [[antithetic, as_dict]] checks [antithetic] on both passes, as written. *)
Definition vnorm (n mean sd stream antithetic as_dict : pyobj)
  : M G (variate_result pyfloat) :=
  lift (_checkType n (Ty T_int)) ;;
  lift (_checkType stream (Ty T_int)) ;;
  lift (_checkType mean (UnionType [T_float; T_int])) ;;
  lift (_checkType sd (UnionType [T_float; T_int])) ;;
  lift (_checkType antithetic (Ty T_bool)) ;;
  lift (_checkType antithetic (Ty T_bool)) ;;
  let max_stream := numStreams - 1 in
  lift (_checkRange n (Some (PyInt 1)) None true true) ;;
  lift (_checkRange sd (Some (PyInt 0)) None false true) ;;
  lift (_checkRange stream (Some (PyInt 0)) (Some (PyInt max_stream)) true true) ;;
  u <- generate n stream antithetic ;;
  let x := shape_map (norm_ppf mean sd) u in
  deliver as_dict u x.

(** [vbinom(n, size, prob, stream, antithetic, as_dict)] *)
Definition vbinom (n size prob stream antithetic as_dict : pyobj)
  : M G (variate_result Z) :=
  lift (_checkType n (Ty T_int)) ;;
  lift (_checkType size (Ty T_int)) ;;
  lift (_checkType stream (Ty T_int)) ;;
  lift (_checkType prob (Ty T_float)) ;;
  lift (_checkType antithetic (Ty T_bool)) ;;
  lift (_checkType as_dict (Ty T_bool)) ;;
  let max_stream := numStreams - 1 in
  lift (_checkRange n (Some (PyInt 1)) None true true) ;;
  lift (_checkRange size (Some (PyInt 0)) None true true) ;;
  lift (_checkRange prob (Some (PyInt 0)) (Some (PyInt 1)) false true) ;;
  lift (_checkRange stream (Some (PyInt 0)) (Some (PyInt max_stream)) true true) ;;
  u <- generate n stream antithetic ;;
  ppf <- lift (binom_ppf size prob) ;;
  let x := shape_map ppf u in
  deliver as_dict u x.

End Generators.


(** ** Specification-side descriptions of the table and of draws *)

Section Describe.

Context {G : Type} `{BitGenerator G}.

(** A table as the class keeps it: the fixed number of entries. *)
Definition table_ok (t : table G) : Prop :=
  length t = Z.to_nat numStreams.

(** The table that jump-ahead derives from one root bit generator: entry
    [j] wraps the root jumped [j] times. *)
Definition jump_table (root : G) : table G :=
  (fun j => Some (MkGenerator (Nat.iter j jumped root)))
    <$> seq 0 (Z.to_nat numStreams).

(** The bit generator after one draw, and after [n] draws. *)
Definition advance (g : G) : G := snd (next_double g).

Fixpoint advance_by (n : nat) (g : G) : G :=
  match n with
  | O => g
  | S n' => advance_by n' (advance g)
  end.

(** The standard uniform a bit generator yields next, as
    [generator.uniform(0, 1)] computes it. *)
Definition unit_draw (g : G) : Q :=
  (0 + (1 - 0) * (fst (next_double g) # 2 ^ 53))%Q.

(** The next [n] standard uniforms of a bit generator, in draw order. *)
Fixpoint raw_draws (n : nat) (g : G) : list Q :=
  match n with
  | O => []
  | S n' => unit_draw g :: raw_draws n' (advance g)
  end.

(** [u], or [1 - u] when antithetic. *)
Definition complement (antithetic : bool) (u : Q) : Q :=
  if antithetic then (1 - u)%Q else u.

(** What [_generateUniforms(n, _, antithetic)] returns when the chosen
    stream wraps [g]. *)
Definition uniforms_of (n : Z) (antithetic : bool) (g : G) : shape Q :=
  if n =? 1 then Scalar (complement antithetic (unit_draw g))
  else Vector (complement antithetic <$> raw_draws (Z.to_nat n) g).

(** A computation that never resizes [rng._streams]. *)
Definition keeps_size {A} (m : M G A) : Prop :=
  forall t : table G, length (snd (m t)) = length t.

Context `{Quantiles}.

Local Open Scope state_exn_scope.

(** What [deliver] hands back for uniforms [u] inverted by [q]. *)
Definition delivered {X} (as_dict : pyobj) (q : Q -> X) (u : shape Q)
  : variate_result X :=
  if truthy as_dict
  then Dict [("u"%string, Uniforms u); ("x"%string, Inverted (shape_map q u))]
  else Variates (shape_map q u).

(** Generation followed by inversion: the part of a variate function that
    comes after its checks. *)
Definition invert {X} (n stream antithetic as_dict : pyobj) (q : Q -> X)
  : M G (variate_result X) :=
  u <- generate n stream antithetic ;;
  deliver as_dict u (shape_map q u).

(** The same when the step between generation and inversion may raise:
    [lib] is the quantile function that step yields, or its exception. *)
Definition invert_through {X} (n stream antithetic as_dict : pyobj)
    (lib : result (Q -> X)) : M G (variate_result X) :=
  u <- generate n stream antithetic ;;
  q <- lift lib ;;
  deliver as_dict u (shape_map q u).

(** The step of [vunif]: [max_ - min_], then scipy's quantile. *)
Definition uniform_call (min_ max_ : pyobj) : result (Q -> pyfloat) :=
  rbind (py_sub_outcome max_ min_) (fun _ => ok (uniform_ppf min_ max_)).

End Describe.

(** ** Specification-side descriptions of the checks *)

Section Kinds.

Import ErrorChecks.

(** Kinds of objects, as the type checks sort them. *)
Definition int_object (v : pyobj) : bool := isinstance v T_int.
Definition real_object (v : pyobj) : bool := isinstance2 v T_float T_int.
Definition flag_object (v : pyobj) : bool := isinstance v T_bool.

(** Numeric order on objects that are numbers (false otherwise). *)
Definition num_lt (a b : pyobj) : bool :=
  match num_value a, num_value b with
  | Some x, Some y => float_lt x y
  | _, _ => false
  end.

Definition num_le (a b : pyobj) : bool :=
  match num_value a, num_value b with
  | Some x, Some y => float_le x y
  | _, _ => false
  end.

(** The range verdict of [_checkRange], without its type checks. *)
Definition out_of_range (obj : pyobj) (min_ max_ : option pyobj)
    (include_min include_max : bool) : bool :=
  match min_ with
  | Some lo => if include_min then num_lt obj lo else num_le obj lo
  | None => false
  end
  || match max_ with
     | Some hi => if include_max then num_lt hi obj else num_le hi obj
     | None => false
     end.

(** The argument values the range claim names. *)
Definition is_zero (v : pyobj) : Prop :=
  exists q, num_value v = Some (FFinite q) /\ (q == 0)%Q.

Definition exceeds_one (v : pyobj) : Prop := num_lt (PyInt 1) v = true.

Definition bad_count_or_stream (n stream : pyobj) : Prop :=
  int_value n = Some 0 \/
  int_value stream = Some (-1) \/
  int_value stream = Some numStreams.

End Kinds.

(** ** A small bit generator for closed examples

    A 53-bit linear congruential generator that implements the
    [BitGenerator] interface, with identity-like quantile functions.  It
    stands in for MT19937 and scipy wherever an example has to run. *)

Module Lcg.

Definition modulus : Z := 2 ^ 53.

Definition step (g : Z) : Z :=
  (6364136223846793005 * g + 1442695040888963407) mod modulus.

Definition draw (g : Z) : Z * Z := (g mod modulus, step g).

(** Like numpy's [SeedSequence], a negative seed is refused. *)
#[export] Instance lcg_BitGenerator : BitGenerator Z := {|
  seeded s := if s <? 0 then throw ValueError else ok (s mod modulus);
  jumped g := (g + 2 ^ 32) mod modulus;
  next_double := draw;
  next_double_range g := Z.mod_pos_bound g modulus eq_refl
|}.

(** Like numpy, the binomial quantile refuses a size beyond 64-bit integers. *)
#[export] Instance plain_Quantiles : Quantiles := {|
  uniform_ppf _ _ u := FFinite u;
  expon_ppf _ u := FFinite u;
  binom_ppf size _ :=
    match int_value size with
    | Some z => if z <? 2 ^ 63 then ok (fun _ => 0) else throw OverflowError
    | None => throw TypeError
    end;
  norm_ppf _ _ u := FFinite u
|}.

(** The table as the class body leaves it, and after [set_seed(seed)]. *)
Definition unseeded : table Z := _streams_init.

Definition seeded_table (seed : Z) : table Z :=
  snd (set_seed (PyInt seed) 0 unseeded).

End Lcg.

(** ** Specification-side descriptions of calls *)

Section DescribeCalls.

Context {G : Type} `{BitGenerator G}.

(** A call with a valid count and a valid stream of a seeded table of the
    right size; [g] is the bit generator the stream wraps. *)
Record valid_call (n s : Z) (t : table G) (g : G) : Prop := {
  valid_count : 1 <= n;
  valid_stream : 0 <= s < numStreams;
  valid_table : table_ok t;
  valid_slot : t !! Z.to_nat s = Some (Some (MkGenerator g))
}.

(** What a variate function hands back for a list [us] of uniforms
    inverted by [q]: the list of images, or the dictionary of both. *)
Definition several_delivered {X} (as_dict : bool) (q : Q -> X) (us : list Q)
  : variate_result X :=
  if as_dict
  then Dict [("u"%string, Uniforms (Vector us));
             ("x"%string, Inverted (Vector (q <$> us)))]
  else Variates (Vector (q <$> us)).

End DescribeCalls.

(** * Properties *)


(** ** Facts about the stream table *)

Section RngFacts.

Context {G : Type} `{BitGenerator G}.

Implicit Types (t : table G) (g : G) (gen : Generator G).

Lemma list_index_in_range (len : nat) (i : Z) :
  0 <= i < Z.of_nat len -> list_index len i = Some (Z.to_nat i).
Proof.
  intros Hi. unfold list_index.
  destruct (Z.ltb_spec i 0); [lia|].
  destruct (Z.leb_spec 0 i); [|lia].
  destruct (Z.ltb_spec i (Z.of_nat len)); [reflexivity|lia].
Qed.

Lemma list_index_negative (len : nat) (i : Z) :
  - Z.of_nat len <= i < 0 ->
  list_index len i = Some (Z.to_nat (i + Z.of_nat len)).
Proof.
  intros Hi. unfold list_index.
  destruct (Z.ltb_spec i 0); [|lia].
  destruct (Z.leb_spec 0 (i + Z.of_nat len)); [|lia].
  destruct (Z.ltb_spec (i + Z.of_nat len) (Z.of_nat len)); [reflexivity|lia].
Qed.

Lemma list_index_outside (len : nat) (i : Z) :
  i < - Z.of_nat len \/ Z.of_nat len <= i -> list_index len i = None.
Proof.
  intros Hi. unfold list_index.
  destruct (Z.ltb_spec i 0).
  - destruct (Z.leb_spec 0 (i + Z.of_nat len)); [|reflexivity]. simpl.
    destruct (Z.ltb_spec (i + Z.of_nat len) (Z.of_nat len)); [lia|reflexivity].
  - destruct (Z.leb_spec 0 i); [|lia]. simpl.
    destruct (Z.ltb_spec i (Z.of_nat len)); [lia|reflexivity].
Qed.

(** The seeding loop overwrites the slots [i .. i + count - 1] with the
    successive jumps of its bit generator and touches nothing else. *)
Lemma set_seed_loop_spec (count : nat) :
  forall (i : nat) g t,
    (i + count <= length t)%nat ->
    exists t',
      set_seed_loop count (Z.of_nat i) g t = (inr tt, t') /\
      length t' = length t /\
      forall j : nat,
        t' !! j =
          if decide (i <= j < i + count)%nat
          then Some (Some (MkGenerator (Nat.iter (j - i) jumped g)))
          else t !! j.
Proof.
  induction count as [|count IH]; intros i g t Hlen.
  - exists t. split; [reflexivity|]. split; [reflexivity|].
    intros j. destruct (decide _); [lia|reflexivity].
  - cbn [set_seed_loop]. unfold bind at 1, streams_setitem at 1.
    rewrite list_index_in_range by lia. rewrite Nat2Z.id.
    replace (Z.of_nat i + 1) with (Z.of_nat (S i)) by lia.
    destruct (IH (S i) (jumped g) (<[i := Some (MkGenerator g)]> t))
      as (t' & Hrun & Hlen' & Hlook).
    { rewrite length_insert. lia. }
    exists t'. split; [exact Hrun|]. split.
    { rewrite Hlen', length_insert. reflexivity. }
    intros j. rewrite Hlook.
    destruct (decide (S i <= j < S i + count)%nat) as [Hin|Hout].
    + destruct (decide (i <= j < i + S count)%nat); [|lia].
      replace (j - i)%nat with (S (j - S i)) by lia.
      rewrite Nat.iter_succ_r. reflexivity.
    + destruct (decide (i <= j < i + S count)%nat) as [Hin'|Hout'].
      * assert (j = i) as -> by lia.
        rewrite list_lookup_insert_eq by lia.
        rewrite Nat.sub_diag. reflexivity.
      * rewrite list_lookup_insert_ne by lia. reflexivity.
Qed.

(** On a table of the right size, seeding from a root builds exactly the
    jump table, whatever the table held before. *)
Lemma set_seed_loop_full root t :
  table_ok t ->
  set_seed_loop (Z.to_nat _num_streams) 0 root t = (inr tt, jump_table root).
Proof.
  intros Hok. unfold table_ok, numStreams in Hok.
  destruct (set_seed_loop_spec (Z.to_nat _num_streams) 0 root t)
    as (t' & Hrun & Hlen & Hlook); [lia|].
  change (Z.of_nat 0) with 0 in Hrun. rewrite Hrun. f_equal.
  apply list_eq. intros j. rewrite Hlook. unfold jump_table, numStreams.
  rewrite list_lookup_fmap.
  destruct (decide (0 <= j < 0 + Z.to_nat _num_streams)%nat) as [Hin|Hout].
  - rewrite lookup_seq_lt by lia. simpl. rewrite Nat.sub_0_r. reflexivity.
  - rewrite lookup_seq_ge by lia. simpl. apply lookup_ge_None_2. lia.
Qed.

Lemma jump_table_ok root : table_ok (jump_table root).
Proof. unfold table_ok, jump_table. rewrite length_fmap, length_seq. reflexivity. Qed.

Lemma jump_table_slot root (i : Z) :
  0 <= i < numStreams ->
  list_index (length (jump_table root)) i = Some (Z.to_nat i).
Proof.
  intros Hi. apply list_index_in_range. rewrite (jump_table_ok root).
  unfold numStreams, _num_streams in *. lia.
Qed.

Lemma jump_table_lookup root (j : nat) :
  (j < Z.to_nat numStreams)%nat ->
  jump_table root !! j = Some (Some (MkGenerator (Nat.iter j jumped root))).
Proof.
  intros Hj. unfold jump_table. rewrite list_lookup_fmap, lookup_seq_lt by exact Hj.
  reflexivity.
Qed.

(** [rng.set_seed] on a well-sized table: numpy's refusal leaves the table
    alone, a root makes it the jump table. *)
Lemma rng_set_seed_spec (seed : option Z) (os_entropy : Z) t :
  table_ok t ->
  rng_set_seed seed os_entropy t =
    match seeded (match seed with Some s => s | None => os_entropy end) with
    | inl e => (inl e, t)
    | inr root => (inr tt, jump_table root)
    end.
Proof.
  intros Hok. unfold rng_set_seed, bind, lift.
  destruct (seeded _) as [e|root]; [reflexivity|].
  apply set_seed_loop_full, Hok.
Qed.

End RngFacts.

(** ** Facts about draws *)

Section DrawFacts.

Context {G : Type} `{BitGenerator G}.

Implicit Types (t : table G) (g : G) (gen : Generator G).

(** One draw through a subscript that designates slot [j]. *)
Lemma rng_uniform_at (a b : Q) (i : Z) (j : nat) t gen :
  list_index (length t) i = Some j ->
  t !! j = Some (Some gen) ->
  rng_uniform a b i t =
    (inr (fst (Generator_uniform gen a b)),
     <[j := Some (snd (Generator_uniform gen a b))]> t).
Proof.
  intros Hidx Hlook. unfold rng_uniform, bind, streams_getitem.
  rewrite Hidx, Hlook.
  destruct (Generator_uniform gen a b) as [u gen'].
  unfold streams_setitem. rewrite Hidx. reflexivity.
Qed.

(** A subscript that designates no slot raises and changes nothing. *)
Lemma rng_uniform_no_slot (a b : Q) (i : Z) t :
  list_index (length t) i = None ->
  rng_uniform a b i t = (inl IndexError, t).
Proof.
  intros Hidx. unfold rng_uniform, bind, streams_getitem.
  rewrite Hidx. reflexivity.
Qed.

Lemma Generator_uniform_unit gen :
  Generator_uniform gen 0 1 =
    (unit_draw (bit_generator gen), MkGenerator (advance (bit_generator gen))).
Proof.
  unfold Generator_uniform, unit_draw, advance.
  destruct (next_double (bit_generator gen)) as [k g']. reflexivity.
Qed.

Lemma draw_one_at (i : Z) (j : nat) (antithetic : bool) t g :
  list_index (length t) i = Some j ->
  t !! j = Some (Some (MkGenerator g)) ->
  draw_one i antithetic t =
    (inr (complement antithetic (unit_draw g)),
     <[j := Some (MkGenerator (advance g))]> t).
Proof.
  intros Hidx Hlook. unfold draw_one, bind.
  rewrite (rng_uniform_at 0 1 i j t _ Hidx Hlook), Generator_uniform_unit.
  reflexivity.
Qed.

(** [count] passes of the loop append the next [count] draws and leave the
    slot's generator advanced by [count]. *)
Lemma draw_loop_at (count : nat) :
  forall (i : Z) (j : nat) (antithetic : bool) (u : list Q) t g,
    list_index (length t) i = Some j ->
    t !! j = Some (Some (MkGenerator g)) ->
    draw_loop count i antithetic u t =
      (inr (u ++ (complement antithetic <$> raw_draws count g)),
       <[j := Some (MkGenerator (advance_by count g))]> t).
Proof.
  induction count as [|count IH]; intros i j antithetic u t g Hidx Hlook.
  - cbn. rewrite app_nil_r, (list_insert_id _ _ _ Hlook). reflexivity.
  - cbn [draw_loop raw_draws advance_by]. unfold bind at 1.
    rewrite (draw_one_at i j antithetic t g Hidx Hlook).
    assert (j < length t)%nat as Hj by (eapply lookup_lt_Some; exact Hlook).
    rewrite (IH i j antithetic _ _ (advance g)).
    + rewrite list_insert_insert_eq, fmap_cons, <- app_assoc. reflexivity.
    + rewrite length_insert. exact Hidx.
    + apply list_lookup_insert_eq. exact Hj.
Qed.

(** [_generateUniforms] through a subscript that designates a seeded slot. *)
Lemma _generateUniforms_at (n i : Z) (j : nat) (antithetic : bool) t g :
  list_index (length t) i = Some j ->
  t !! j = Some (Some (MkGenerator g)) ->
  _generateUniforms n i antithetic t =
    (inr (uniforms_of n antithetic g),
     <[j := Some (MkGenerator (advance_by (Z.to_nat n) g))]> t).
Proof.
  intros Hidx Hlook. unfold _generateUniforms, uniforms_of.
  destruct (Z.eqb_spec n 1) as [->|Hn].
  - unfold bind. rewrite (draw_one_at i j antithetic t g Hidx Hlook).
    reflexivity.
  - unfold bind. rewrite (draw_loop_at _ i j antithetic [] t g Hidx Hlook).
    reflexivity.
Qed.

Lemma length_raw_draws (n : nat) : forall g, length (raw_draws n g) = n.
Proof. induction n as [|n IH]; intros g; simpl; [reflexivity|]. rewrite IH. reflexivity. Qed.

(** The values of [uniforms_of], whatever the shape. *)
Lemma values_uniforms_of (n : Z) (antithetic : bool) g :
  values (uniforms_of n antithetic g) =
    complement antithetic <$> raw_draws (Z.to_nat n) g.
Proof.
  unfold uniforms_of. destruct (Z.eqb_spec n 1) as [->|Hn]; reflexivity.
Qed.

(** A raw draw is the double [k / 2^53] with [0 <= k < 2^53]. *)
Lemma unit_draw_eq g : (unit_draw g == fst (next_double g) # 2 ^ 53)%Q.
Proof. unfold unit_draw. ring. Qed.

Lemma unit_draw_range g : (0 <= unit_draw g < 1)%Q.
Proof.
  pose proof (next_double_range g) as Hk.
  rewrite unit_draw_eq. unfold Qle, Qlt. cbn [Qnum Qden].
  change (Z.pos (2 ^ 53)) with (2 ^ 53) . lia.
Qed.

Lemma complement_range (antithetic : bool) (u : Q) :
  (0 <= u < 1)%Q ->
  if antithetic then (0 < complement antithetic u <= 1)%Q
  else (0 <= complement antithetic u < 1)%Q.
Proof.
  intros [Hlo Hhi]. destruct antithetic; cbn [complement]; [|split; assumption].
  destruct u as [p q]. unfold Qle, Qlt in *. cbn in *. lia.
Qed.

Lemma raw_draws_range (n : nat) :
  forall g, Forall (fun u => (0 <= u < 1)%Q) (raw_draws n g).
Proof.
  induction n as [|n IH]; intros g; cbn [raw_draws]; constructor.
  - apply unit_draw_range.
  - apply IH.
Qed.

End DrawFacts.

(** ** Facts about the checks *)

Section CheckFacts.

Import ErrorChecks.


Lemma _checkType_int v : int_object v = true -> _checkType v (Ty T_int) = ok tt.
Proof. destruct v; intros Hv; try discriminate Hv; reflexivity. Qed.

Lemma _checkType_float v : real_object v = true -> _checkType v (Ty T_float) = ok tt.
Proof. destruct v; intros Hv; try discriminate Hv; reflexivity. Qed.

Lemma _checkType_float_int v :
  real_object v = true -> _checkType v (UnionType [T_float; T_int]) = ok tt.
Proof. destruct v; intros Hv; try discriminate Hv; reflexivity. Qed.

Lemma _checkType_int_float v :
  real_object v = true -> _checkType v (UnionType [T_int; T_float]) = ok tt.
Proof. destruct v; intros Hv; try discriminate Hv; reflexivity. Qed.

Lemma _checkType_bool v : flag_object v = true -> _checkType v (Ty T_bool) = ok tt.
Proof. destruct v; intros Hv; try discriminate Hv; reflexivity. Qed.

Lemma int_object_real v : int_object v = true -> real_object v = true.
Proof. destruct v; intros Hv; try discriminate Hv; reflexivity. Qed.

Lemma real_object_num v : real_object v = true -> exists x, num_value v = Some x.
Proof. destruct v; intros Hv; try discriminate Hv; eexists; reflexivity. Qed.

Lemma int_object_value v : int_object v = true -> exists z, int_value v = Some z.
Proof. destruct v; intros Hv; try discriminate Hv; eexists; reflexivity. Qed.

Lemma int_value_num v z :
  int_value v = Some z -> num_value v = Some (FFinite (inject_Z z)).
Proof.
  destruct v as [|b|z'|f|s]; intros Hv; try discriminate Hv.
  - injection Hv as <-. destruct b; reflexivity.
  - injection Hv as <-. reflexivity.
Qed.

(** For a number and numeric bounds, [_checkRange] raises [ValueError]
    exactly on the range verdict, and nothing else. *)
Lemma _checkRange_verdict obj min_ max_ include_min include_max :
  real_object obj = true ->
  (forall lo, min_ = Some lo -> real_object lo = true) ->
  (forall hi, max_ = Some hi -> real_object hi = true) ->
  _checkRange obj min_ max_ include_min include_max =
    if out_of_range obj min_ max_ include_min include_max
    then throw ValueError else ok tt.
Proof.
  intros Hobj Hlo Hhi. unfold _checkRange.
  rewrite (_checkType_int_float obj Hobj).
  assert (forall b, _checkType (PyBool b) (Ty T_bool) = ok tt) as Hflag
    by (intros b; reflexivity).
  rewrite !Hflag.
  destruct (real_object_num obj Hobj) as [x Hx].
  unfold out_of_range, num_lt, num_le, py_gt, py_ge, py_lt, py_le. rewrite Hx.
  destruct min_ as [lo|], max_ as [hi|]; cbn [rbind].
  - destruct (real_object_num lo (Hlo lo eq_refl)) as [y ->].
    destruct (real_object_num hi (Hhi hi eq_refl)) as [z ->].
    destruct include_min, include_max; cbn [rbind ok];
      match goal with |- context [if ?c then throw ValueError else ok tt] =>
        destruct c end; cbn; try reflexivity;
      match goal with |- context [if ?c then _ else _] => destruct c end;
      reflexivity.
  - destruct (real_object_num lo (Hlo lo eq_refl)) as [y ->].
    destruct include_min; cbn [rbind ok]; rewrite orb_false_r;
      match goal with |- context [if ?c then throw ValueError else ok tt] =>
        destruct c end; reflexivity.
  - destruct (real_object_num hi (Hhi hi eq_refl)) as [z ->].
    destruct include_max; cbn [rbind ok orb];
      match goal with |- context [if ?c then throw ValueError else ok tt] =>
        destruct c end; reflexivity.
  - reflexivity.
Qed.

Lemma float_lt_int (a b : Z) :
  float_lt (FFinite (inject_Z a)) (FFinite (inject_Z b)) = (a <? b).
Proof.
  cbn. unfold Qle_bool, inject_Z. cbn [Qnum Qden].
  rewrite !Z.mul_1_r, Z.ltb_antisym. reflexivity.
Qed.

Lemma float_le_int (a b : Z) :
  float_le (FFinite (inject_Z a)) (FFinite (inject_Z b)) = (a <=? b).
Proof.
  cbn. unfold Qle_bool, inject_Z. cbn [Qnum Qden].
  rewrite !Z.mul_1_r. reflexivity.
Qed.

(** The range verdict on integers. *)
Lemma out_of_range_int_min v (z lo : Z) :
  int_value v = Some z ->
  out_of_range v (Some (PyInt lo)) None true true = (z <? lo).
Proof.
  intros Hv. unfold out_of_range, num_lt.
  rewrite (int_value_num v z Hv). cbn [num_value].
  rewrite float_lt_int, orb_false_r. reflexivity.
Qed.

Lemma out_of_range_int_between v (z lo hi : Z) :
  int_value v = Some z ->
  out_of_range v (Some (PyInt lo)) (Some (PyInt hi)) true true
  = (z <? lo) || (hi <? z).
Proof.
  intros Hv. unfold out_of_range, num_lt.
  rewrite (int_value_num v z Hv). cbn [num_value].
  rewrite !float_lt_int. reflexivity.
Qed.

End CheckFacts.

(** ** Facts about the variate functions *)

Section VariateFacts.

Context {G : Type} `{BitGenerator G} `{Quantiles}.

Import ErrorChecks.

Local Open Scope state_exn_scope.

Implicit Types (t : table G) (g : G).


Lemma bind_lift_ok {A B} (r : result A) (a : A) (k : A -> M G B) t :
  r = ok a -> bind (lift r) k t = k a t.
Proof. intros ->. reflexivity. Qed.

Lemma bind_lift_verdict {B} (c : bool) (e : exn) (k : unit -> M G B) t :
  bind (lift (if c then throw e else ok tt)) k t =
    if c then (inl e, t) else k tt t.
Proof. destruct c; reflexivity. Qed.

Lemma real_PyInt (z : Z) : real_object (PyInt z) = true.
Proof. reflexivity. Qed.

Lemma real_bound (z : Z) (b : pyobj) : Some (PyInt z) = Some b -> real_object b = true.
Proof. intros [= <-]. reflexivity. Qed.

Lemma no_bound (b : pyobj) : None = Some b -> real_object b = true.
Proof. discriminate. Qed.

Lemma real_bound_of (v : pyobj) :
  real_object v = true -> forall b, Some v = Some b -> real_object b = true.
Proof. intros Hv b [= <-]. exact Hv. Qed.

(** Discharge the checks of a variate function one by one. *)
Ltac pass_type_check :=
  erewrite bind_lift_ok by
    first [ apply _checkType_int; assumption
          | apply _checkType_float; assumption
          | apply _checkType_float_int; assumption
          | apply _checkType_bool; assumption ];
  cbv beta.

Ltac reach_range_check :=
  rewrite _checkRange_verdict by
    first [ assumption | apply int_object_real; assumption
          | apply real_bound | apply no_bound
          | apply real_bound_of; assumption ];
  rewrite bind_lift_verdict; cbv beta.

Lemma vunif_checked n min_ max_ stream antithetic as_dict t :
  int_object n = true -> int_object stream = true ->
  real_object min_ = true -> real_object max_ = true ->
  flag_object antithetic = true -> flag_object as_dict = true ->
  vunif n min_ max_ stream antithetic as_dict t =
    if out_of_range n (Some (PyInt 1)) None true true then (inl ValueError, t)
    else if out_of_range max_ (Some min_) None true true then (inl ValueError, t)
    else if out_of_range stream (Some (PyInt 0)) (Some (PyInt (numStreams - 1))) true true
    then (inl ValueError, t)
    else invert_through n stream antithetic as_dict (uniform_call min_ max_) t.
Proof.
  intros Hn Hs Hmin Hmax Ha Hd. unfold vunif. cbv zeta.
  do 6 pass_type_check. do 3 reach_range_check.
  repeat match goal with |- (if ?c then _ else _) = _ => destruct c end;
    try reflexivity.
  unfold invert_through, uniform_call, bind.
  destruct (generate n stream antithetic t) as [[e|u] t']; [reflexivity|].
  unfold lift. destruct (py_sub_outcome max_ min_); reflexivity.
Qed.

Lemma vexp_checked n rate stream antithetic as_dict t :
  int_object n = true -> int_object stream = true ->
  real_object rate = true ->
  flag_object antithetic = true -> flag_object as_dict = true ->
  vexp n rate stream antithetic as_dict t =
    if out_of_range n (Some (PyInt 1)) None true true then (inl ValueError, t)
    else if out_of_range rate (Some (PyInt 0)) None false true then (inl ValueError, t)
    else if out_of_range stream (Some (PyInt 0)) (Some (PyInt (numStreams - 1))) true true
    then (inl ValueError, t)
    else invert n stream antithetic as_dict (expon_ppf rate) t.
Proof.
  intros Hn Hs Hrate Ha Hd. unfold vexp. cbv zeta.
  do 5 pass_type_check. do 3 reach_range_check. reflexivity.
Qed.

(** [vnorm] asks nothing of [as_dict]. *)
Lemma vnorm_checked n mean sd stream antithetic as_dict t :
  int_object n = true -> int_object stream = true ->
  real_object mean = true -> real_object sd = true ->
  flag_object antithetic = true ->
  vnorm n mean sd stream antithetic as_dict t =
    if out_of_range n (Some (PyInt 1)) None true true then (inl ValueError, t)
    else if out_of_range sd (Some (PyInt 0)) None false true then (inl ValueError, t)
    else if out_of_range stream (Some (PyInt 0)) (Some (PyInt (numStreams - 1))) true true
    then (inl ValueError, t)
    else invert n stream antithetic as_dict (norm_ppf mean sd) t.
Proof.
  intros Hn Hs Hmean Hsd Ha. unfold vnorm. cbv zeta.
  do 6 pass_type_check. do 3 reach_range_check. reflexivity.
Qed.

Lemma vbinom_checked n size prob stream antithetic as_dict t :
  int_object n = true -> int_object size = true -> int_object stream = true ->
  real_object prob = true ->
  flag_object antithetic = true -> flag_object as_dict = true ->
  vbinom n size prob stream antithetic as_dict t =
    if out_of_range n (Some (PyInt 1)) None true true then (inl ValueError, t)
    else if out_of_range size (Some (PyInt 0)) None true true then (inl ValueError, t)
    else if out_of_range prob (Some (PyInt 0)) (Some (PyInt 1)) false true
    then (inl ValueError, t)
    else if out_of_range stream (Some (PyInt 0)) (Some (PyInt (numStreams - 1))) true true
    then (inl ValueError, t)
    else invert_through n stream antithetic as_dict (binom_ppf size prob) t.
Proof.
  intros Hn Hsize Hs Hprob Ha Hd. unfold vbinom. cbv zeta.
  do 6 pass_type_check. do 4 reach_range_check. reflexivity.
Qed.

(** Generation and inversion on a seeded slot. *)
Lemma invert_at {X} n stream antithetic as_dict (q : Q -> X) t
    (n' s : Z) (j : nat) g :
  int_value n = Some n' -> int_value stream = Some s ->
  list_index (length t) s = Some j ->
  t !! j = Some (Some (MkGenerator g)) ->
  invert n stream antithetic as_dict q t =
    (inr (delivered as_dict q (uniforms_of n' (truthy antithetic) g)),
     <[j := Some (MkGenerator (advance_by (Z.to_nat n') g))]> t).
Proof.
  intros Hn Hs Hidx Hlook. unfold invert, generate, as_int, bind.
  rewrite Hn, Hs. cbn [ret].
  rewrite (_generateUniforms_at n' s j _ t g Hidx Hlook).
  unfold deliver, delivered. destruct (truthy as_dict); reflexivity.
Qed.

(** The same through a step that may raise: the draws are made either way. *)
Lemma invert_through_at {X} n stream antithetic as_dict
    (lib : result (Q -> X)) t (n' s : Z) (j : nat) g :
  int_value n = Some n' -> int_value stream = Some s ->
  list_index (length t) s = Some j ->
  t !! j = Some (Some (MkGenerator g)) ->
  invert_through n stream antithetic as_dict lib t =
    (match lib with
     | inl e => inl e
     | inr q => inr (delivered as_dict q (uniforms_of n' (truthy antithetic) g))
     end,
     <[j := Some (MkGenerator (advance_by (Z.to_nat n') g))]> t).
Proof.
  intros Hn Hs Hidx Hlook. unfold invert_through, generate, as_int, bind.
  rewrite Hn, Hs. cbn [ret].
  rewrite (_generateUniforms_at n' s j _ t g Hidx Hlook).
  destruct lib as [e|q]; [reflexivity|].
  unfold lift, deliver, delivered. destruct (truthy as_dict); reflexivity.
Qed.

End VariateFacts.

(** ** The table keeps its size *)

Section Sizes.

Context {G : Type} `{BitGenerator G} `{Quantiles}.

Local Open Scope state_exn_scope.


Lemma keeps_size_ret {A} (a : A) : keeps_size (G := G) (ret a).
Proof. intros t. reflexivity. Qed.

Lemma keeps_size_raise {A} (e : exn) : keeps_size (G := G) (raise (A := A) e).
Proof. intros t. reflexivity. Qed.

Lemma keeps_size_lift {A} (r : result A) : keeps_size (G := G) (lift r).
Proof. intros t. reflexivity. Qed.

Lemma keeps_size_bind {A B} (m : M G A) (k : A -> M G B) :
  keeps_size m -> (forall a, keeps_size (k a)) -> keeps_size (bind m k).
Proof.
  intros Hm Hk t. unfold bind. specialize (Hm t).
  destruct (m t) as [[e|a] t']; cbn [snd] in *; [exact Hm|].
  rewrite Hk. exact Hm.
Qed.

Lemma keeps_size_getitem (i : Z) : keeps_size (streams_getitem (G := G) i).
Proof.
  intros t. unfold streams_getitem.
  destruct (list_index (length t) i) as [j|]; [|reflexivity].
  destruct (t !! j); reflexivity.
Qed.

Lemma keeps_size_setitem (i : Z) entry : keeps_size (streams_setitem (G := G) i entry).
Proof.
  intros t. unfold streams_setitem.
  destruct (list_index (length t) i) as [j|]; [|reflexivity].
  cbn [snd]. apply length_insert.
Qed.

Create HintDb keeps_size.
#[local] Hint Resolve keeps_size_ret keeps_size_raise keeps_size_lift
  keeps_size_getitem keeps_size_setitem : keeps_size.

Ltac keeps_size_step :=
  first [ apply keeps_size_bind; [|intros ?] | solve [auto with keeps_size] ].

Lemma keeps_size_rng_uniform (a b : Q) (i : Z) : keeps_size (rng_uniform a b i).
Proof.
  unfold rng_uniform.
  apply keeps_size_bind; [apply keeps_size_getitem|intros entry].
  destruct entry as [gen|]; [|keeps_size_step].
  destruct (Generator_uniform gen a b). repeat keeps_size_step.
Qed.

Lemma keeps_size_draw_one (i : Z) (antithetic : bool) :
  keeps_size (draw_one i antithetic).
Proof.
  unfold draw_one. keeps_size_step; [apply keeps_size_rng_uniform|keeps_size_step].
Qed.

Lemma keeps_size_draw_loop (count : nat) :
  forall (i : Z) (antithetic : bool) (u : list Q),
    keeps_size (draw_loop count i antithetic u).
Proof.
  induction count as [|count IH]; intros i antithetic u; cbn [draw_loop].
  - keeps_size_step.
  - keeps_size_step; [apply keeps_size_draw_one|apply IH].
Qed.

Lemma keeps_size__generateUniforms (n i : Z) (antithetic : bool) :
  keeps_size (_generateUniforms n i antithetic).
Proof.
  unfold _generateUniforms. destruct (n =? 1).
  - keeps_size_step; [apply keeps_size_draw_one|keeps_size_step].
  - keeps_size_step; [apply keeps_size_draw_loop|keeps_size_step].
Qed.

Lemma keeps_size_as_int (v : pyobj) : keeps_size (as_int (G := G) v).
Proof. unfold as_int. destruct (int_value v); keeps_size_step. Qed.

Lemma keeps_size_generate (n stream antithetic : pyobj) :
  keeps_size (generate n stream antithetic).
Proof.
  unfold generate.
  keeps_size_step; [apply keeps_size_as_int|].
  keeps_size_step; [apply keeps_size_as_int|].
  apply keeps_size__generateUniforms.
Qed.

Lemma keeps_size_deliver {X} (as_dict : pyobj) (u : shape Q) (x : shape X) :
  keeps_size (deliver (G := G) as_dict u x).
Proof. unfold deliver. destruct (truthy as_dict); keeps_size_step. Qed.

Lemma keeps_size_vexp (n rate stream antithetic as_dict : pyobj) :
  keeps_size (vexp n rate stream antithetic as_dict).
Proof.
  unfold vexp. cbv zeta.
  repeat (apply keeps_size_bind; [apply keeps_size_lift|intros _]).
  apply keeps_size_bind; [apply keeps_size_generate|intros u].
  apply keeps_size_deliver.
Qed.

End Sizes.

(** ** Seeding *)

Section Seeding.

Context {G : Type} `{BitGenerator G} `{Quantiles}.

Local Open Scope state_exn_scope.

Implicit Types (t : table G).

(** [set_seed] on an [int] object is [rng.set_seed] on its value. *)
Lemma set_seed_int (s os_entropy : Z) :
  set_seed (PyInt s) os_entropy = rng_set_seed (G := G) (Some s) os_entropy.
Proof. reflexivity. Qed.

(** After [set_seed(s)], what follows does not depend on the table before
    the call. *)
Lemma reseed_forgets {A} (s e1 e2 : Z) (f : M G A) t1 t2 :
  table_ok t1 -> table_ok t2 ->
  fst ((set_seed (PyInt s) e1 ;; f) t1) = fst ((set_seed (PyInt s) e2 ;; f) t2).
Proof.
  intros Hok1 Hok2. rewrite !set_seed_int. unfold bind.
  rewrite !rng_set_seed_spec by assumption.
  destruct (seeded s) as [e|root]; reflexivity.
Qed.

(** The table stays well-sized through [set_seed(s)] and a computation that
    keeps the size. *)
Lemma reseed_keeps_ok {A} (s e : Z) (f : M G A) t :
  keeps_size f -> table_ok t -> table_ok (snd ((set_seed (PyInt s) e ;; f) t)).
Proof.
  intros Hf Hok. rewrite set_seed_int. unfold bind.
  rewrite rng_set_seed_spec by assumption.
  destruct (seeded s) as [err|root]; cbn [snd]; [exact Hok|].
  unfold table_ok. rewrite Hf. apply jump_table_ok.
Qed.

End Seeding.

(** * The claims *)

Section SeedClaims.

Context {G : Type} `{BitGenerator G} `{Quantiles}.

Local Open Scope state_exn_scope.

Implicit Types (t : table G).

(** C1 (determinism of seeded generation).  Run [set_seed(s)] and then draw
    [k] uniforms from stream [i]; run the same again on the table the first
    run left behind.  Both runs have the same outcome.  When numpy accepts
    the seed and [i] is a valid stream, that outcome is the [k] uniforms of
    the root jumped [i] times.  In the same way [set_seed(42)] followed by
    [vexp(1, rate=2.0, stream=0)] returns the same value both times: the
    exponential quantile of the first uniform of the root. *)
Theorem seeded_generation_repeats (s e1 e2 : Z) (i k : Z) (antithetic : bool) t :
  table_ok t ->
  let run e := (set_seed (PyInt s) e ;; _generateUniforms k i antithetic) in
  let scenario e :=
    (set_seed (PyInt 42) e ;;
     vexp (PyInt 1) (PyFloat (FFinite 2)) (PyInt 0) (PyBool false) (PyBool false)) in
  fst (run e2 (snd (run e1 t))) = fst (run e1 t) /\
  (forall root, seeded s = inr root -> 0 <= i < numStreams ->
     fst (run e1 t) =
       inr (uniforms_of k antithetic (Nat.iter (Z.to_nat i) jumped root))) /\
  fst (scenario e2 (snd (scenario e1 t))) = fst (scenario e1 t) /\
  (forall root, seeded 42 = inr root ->
     fst (scenario e1 t) =
       inr (Variates (Scalar (expon_ppf (PyFloat (FFinite 2)) (unit_draw root))))).
Proof.
  intros Hok run scenario. split; [|split; [|split]].
  - apply reseed_forgets; [|exact Hok].
    apply reseed_keeps_ok; [apply keeps_size__generateUniforms|exact Hok].
  - intros root Hroot Hi. unfold run. rewrite set_seed_int. unfold bind.
    rewrite rng_set_seed_spec, Hroot by exact Hok.
    rewrite (_generateUniforms_at k i (Z.to_nat i) antithetic _
               (Nat.iter (Z.to_nat i) jumped root)).
    + reflexivity.
    + apply jump_table_slot. exact Hi.
    + apply jump_table_lookup. unfold numStreams, _num_streams in *. lia.
  - apply reseed_forgets; [|exact Hok].
    apply reseed_keeps_ok; [apply keeps_size_vexp|exact Hok].
  - intros root Hroot. unfold scenario. rewrite set_seed_int. unfold bind.
    rewrite rng_set_seed_spec, Hroot by exact Hok.
    rewrite vexp_checked by reflexivity.
    change (out_of_range (PyInt 1) (Some (PyInt 1)) None true true) with false.
    change (out_of_range (PyFloat (FFinite 2)) (Some (PyInt 0)) None false true)
      with false.
    change (out_of_range (PyInt 0) (Some (PyInt 0))
              (Some (PyInt (numStreams - 1))) true true) with false.
    assert (0 <= 0 < numStreams) as Hs by (unfold numStreams, _num_streams; lia).
    rewrite (invert_at (PyInt 1) (PyInt 0) _ _ _ (jump_table root) 1 0 0%nat
               root eq_refl eq_refl (jump_table_slot root 0 Hs)
               (jump_table_lookup root 0 ltac:(unfold numStreams, _num_streams; lia))).
    reflexivity.
Qed.

(** C2, as the code has it (stream table built by jump-ahead).  When numpy
    accepts the seed [s] and builds the root bit generator [root] from it, [rng.set_seed(s)] succeeds and leaves
    a table of [numStreams()] entries in which entry 0 wraps [root] and
    entry [i+1] wraps the jump of the bit generator of entry [i]; the table
    is the same whatever table the call started from. *)
Theorem set_seed_builds_jump_table (s os_entropy : Z) (root : G) t :
  table_ok t ->
  seeded s = inr root ->
  let t' := snd (rng_set_seed (Some s) os_entropy t) in
  fst (rng_set_seed (Some s) os_entropy t) = inr tt /\
  table_ok t' /\
  t' !! 0%nat = Some (Some (MkGenerator root)) /\
  (forall (i : nat) (gen : Generator G),
      (S i < Z.to_nat numStreams)%nat ->
      t' !! i = Some (Some gen) ->
      t' !! S i = Some (Some (MkGenerator (jumped (bit_generator gen))))) /\
  (forall (e2 : Z) (t2 : table G),
      table_ok t2 -> snd (rng_set_seed (Some s) e2 t2) = t').
Proof.
  intros Hok Hroot t'. subst t'.
  rewrite rng_set_seed_spec, Hroot by exact Hok. cbn [fst snd].
  split; [reflexivity|]. split; [apply jump_table_ok|]. split; [|split].
  - apply (jump_table_lookup root 0). unfold numStreams, _num_streams. lia.
  - intros i gen Hi Hgen.
    rewrite jump_table_lookup in Hgen by lia. injection Hgen as <-.
    rewrite jump_table_lookup by exact Hi. reflexivity.
  - intros e2 t2 Hok2. rewrite rng_set_seed_spec, Hroot by exact Hok2.
    reflexivity.
Qed.

End SeedClaims.

Section DrawClaims.

Context {G : Type} `{BitGenerator G}.

Local Open Scope state_exn_scope.

Implicit Types (t : table G) (gen : Generator G).

(** A valid stream index designates its own slot of a well-sized table. *)
Lemma valid_stream_slot (i : Z) t :
  0 <= i < numStreams -> table_ok t ->
  list_index (length t) i = Some (Z.to_nat i).
Proof.
  intros Hi Hok. apply list_index_in_range. rewrite Hok.
  unfold numStreams, _num_streams in *. lia.
Qed.

(** [_generateUniforms] on a valid stream of a seeded table. *)
Lemma _generateUniforms_valid (n i : Z) (antithetic : bool) t gen :
  0 <= i < numStreams -> table_ok t ->
  t !! Z.to_nat i = Some (Some gen) ->
  _generateUniforms n i antithetic t =
    (inr (uniforms_of n antithetic (bit_generator gen)),
     <[Z.to_nat i :=
         Some (MkGenerator (advance_by (Z.to_nat n) (bit_generator gen)))]> t).
Proof.
  intros Hi Hok Hlook. destruct gen as [g].
  apply _generateUniforms_at; [apply valid_stream_slot; assumption|exact Hlook].
Qed.

(** C3 (antithetic identity).  From the same table, with a valid stream [i]
    and [n >= 1], the antithetic call returns, position by position, one
    minus what the plain call returns; both return [n] values and leave the
    same table behind. *)
Theorem antithetic_identity (n i : Z) t gen :
  1 <= n -> 0 <= i < numStreams -> table_ok t ->
  t !! Z.to_nat i = Some (Some gen) ->
  exists plain anti : shape Q,
    fst (_generateUniforms n i false t) = inr plain /\
    fst (_generateUniforms n i true t) = inr anti /\
    length (values plain) = Z.to_nat n /\
    length (values anti) = Z.to_nat n /\
    (forall k : nat,
        values anti !! k = (fun u => (1 - u)%Q) <$> (values plain !! k)) /\
    snd (_generateUniforms n i true t) = snd (_generateUniforms n i false t).
Proof.
  intros Hn Hi Hok Hlook.
  rewrite !(_generateUniforms_valid n i _ t gen Hi Hok Hlook). cbn [fst snd].
  exists (uniforms_of n false (bit_generator gen)),
         (uniforms_of n true (bit_generator gen)).
  rewrite !values_uniforms_of, !length_fmap, !length_raw_draws.
  repeat split; try reflexivity.
  intros k. rewrite !list_lookup_fmap.
  destruct (raw_draws (Z.to_nat n) (bit_generator gen) !! k); reflexivity.
Qed.

(** C8, as the code has it (range of the uniforms).  With a valid stream and
    [n >= 1], every value [_generateUniforms] returns lies in [[0,1)] when
    [antithetic] is false and in [(0,1]] when it is true. *)
Theorem uniforms_range (n i : Z) (antithetic : bool) t gen :
  1 <= n -> 0 <= i < numStreams -> table_ok t ->
  t !! Z.to_nat i = Some (Some gen) ->
  exists us : shape Q,
    fst (_generateUniforms n i antithetic t) = inr us /\
    length (values us) = Z.to_nat n /\
    Forall (fun u => if antithetic then (0 < u <= 1)%Q else (0 <= u < 1)%Q)
           (values us).
Proof.
  intros Hn Hi Hok Hlook.
  rewrite (_generateUniforms_valid n i _ t gen Hi Hok Hlook). cbn [fst].
  eexists. split; [reflexivity|].
  rewrite values_uniforms_of, length_fmap, length_raw_draws.
  split; [reflexivity|].
  apply Forall_fmap.
  eapply Forall_impl; [apply raw_draws_range|].
  intros u Hu. cbn. pose proof (complement_range antithetic u Hu) as Hc.
  destruct antithetic; exact Hc.
Qed.

(** With any bit generator: when the raw draw of the chosen stream is 0.0, a
    single antithetic uniform is 1. *)
Lemma antithetic_of_zero_draw (i : Z) t gen :
  0 <= i < numStreams -> table_ok t ->
  t !! Z.to_nat i = Some (Some gen) ->
  fst (next_double (bit_generator gen)) = 0 ->
  exists u : Q,
    fst (_generateUniforms 1 i true t) = inr (Scalar u) /\ (u == 1)%Q.
Proof.
  intros Hi Hok Hlook Hzero.
  rewrite (_generateUniforms_valid 1 i true t gen Hi Hok Hlook). cbn [fst].
  eexists. split; [reflexivity|].
  cbn [complement]. rewrite unit_draw_eq, Hzero. reflexivity.
Qed.

(** C9 (frame of generation).  With a valid stream [s] and [n >= 1],
    [_generateUniforms(n, s, antithetic)] leaves entry [s] wrapping its bit
    generator advanced by exactly [n] draws, leaves every other entry as it
    was, and keeps the size of the table. *)
Theorem generation_frame (n s : Z) (antithetic : bool) t gen :
  1 <= n -> 0 <= s < numStreams -> table_ok t ->
  t !! Z.to_nat s = Some (Some gen) ->
  let t' := snd (_generateUniforms n s antithetic t) in
  t' !! Z.to_nat s =
    Some (Some (MkGenerator (advance_by (Z.to_nat n) (bit_generator gen)))) /\
  (forall j : nat, j <> Z.to_nat s -> t' !! j = t !! j) /\
  length t' = length t.
Proof.
  intros Hn Hs Hok Hlook t'. subst t'.
  rewrite (_generateUniforms_valid n s _ t gen Hs Hok Hlook). cbn [snd].
  split; [|split].
  - apply list_lookup_insert_eq. eapply lookup_lt_Some. exact Hlook.
  - intros j Hj. apply list_lookup_insert_ne. congruence.
  - apply length_insert.
Qed.

(** Two subscripts that designate the same slot draw alike. *)
Lemma rng_uniform_same_slot (a b : Q) (i i' : Z) t :
  list_index (length t) i = list_index (length t) i' ->
  rng_uniform a b i t = rng_uniform a b i' t.
Proof.
  intros Heq. unfold rng_uniform, bind, streams_getitem. rewrite Heq.
  destruct (list_index (length t) i') as [j|] eqn:Hslot; [|reflexivity].
  destruct (t !! j) as [[gen|]|]; try reflexivity.
  destruct (Generator_uniform gen a b) as [u gen'].
  unfold streams_setitem. rewrite Heq, Hslot. reflexivity.
Qed.

(** C7, as the code has it (subscripts in [rng.uniform]).  On a table of
    [numStreams()] entries, [rng.uniform] raises [IndexError], leaving the
    table alone, for every index at or above [numStreams()] and every index
    below [-numStreams()]; a negative index from [-numStreams()] to [-1] is
    served as the list subscript counts it, by entry [numStreams() + index]. *)
Theorem rng_uniform_subscript (a b : Q) (i : Z) t :
  table_ok t ->
  (i < - numStreams \/ numStreams <= i ->
     rng_uniform a b i t = (inl IndexError, t)) /\
  (- numStreams <= i < 0 ->
     rng_uniform a b i t = rng_uniform a b (i + numStreams) t).
Proof.
  intros Hok. unfold table_ok in Hok.
  assert (Z.of_nat (length t) = numStreams) as Hlen
    by (rewrite Hok; unfold numStreams, _num_streams; lia).
  split; intros Hi.
  - apply rng_uniform_no_slot, list_index_outside. lia.
  - apply rng_uniform_same_slot.
    rewrite list_index_negative, list_index_in_range by lia.
    rewrite Hlen. reflexivity.
Qed.

End DrawClaims.

Section VariateClaims.

Context {G : Type} `{BitGenerator G} `{Quantiles}.

Import ErrorChecks.

Local Open Scope state_exn_scope.

Implicit Types (t : table G) (gen : Generator G).


Lemma zero_count_out n :
  int_value n = Some 0 -> out_of_range n (Some (PyInt 1)) None true true = true.
Proof. intros Hn. rewrite (out_of_range_int_min n 0 1 Hn). reflexivity. Qed.

Lemma bad_stream_out stream :
  int_value stream = Some (-1) \/ int_value stream = Some numStreams ->
  out_of_range stream (Some (PyInt 0)) (Some (PyInt (numStreams - 1))) true true
  = true.
Proof.
  intros [Hs|Hs]; rewrite (out_of_range_int_between stream _ _ _ Hs); reflexivity.
Qed.

Lemma zero_out_open v (hi : option pyobj) :
  is_zero v -> out_of_range v (Some (PyInt 0)) hi false true = true.
Proof.
  intros (q & Hv & Hq). unfold out_of_range, num_le. rewrite Hv.
  cbn [num_value float_le].
  assert (Qle_bool q (inject_Z 0) = true) as ->; [|reflexivity].
  apply Qle_bool_iff. rewrite Hq. apply Qle_refl.
Qed.

Lemma above_one_out v :
  exceeds_one v ->
  out_of_range v (Some (PyInt 0)) (Some (PyInt 1)) false true = true.
Proof.
  unfold exceeds_one, out_of_range. intros ->. apply orb_true_r.
Qed.

(** Settle a chain of range verdicts when one of them is known to be true. *)
Ltac some_check_fails :=
  repeat match goal with
         | |- (if ?c then _ else _) = _ =>
             let E := fresh "E" in destruct c eqn:E; [reflexivity|]
         end;
  exfalso;
  repeat match goal with
         | Hbad : bad_count_or_stream _ _ |- _ => destruct Hbad as [Hbad|Hbad]
         | Hbad : _ \/ _ |- _ => destruct Hbad as [Hbad|Hbad]
         end;
  first [ rewrite zero_count_out in * by assumption
        | rewrite bad_stream_out in * by (first [left; assumption | right; assumption])
        | rewrite zero_out_open in * by assumption
        | rewrite above_one_out in * by assumption ];
  discriminate.

(** C5 (range errors come before any draw).  With arguments of the right
    kinds, each variate function raises [ValueError] and leaves the stream
    table as it was when [n] is 0, [stream] is -1 or [numStreams()], and
    also when [rate] is 0 ([vexp]), [prob] is 0 or above 1 ([vbinom]), or
    [sd] is 0 ([vnorm]). *)
Theorem range_errors_precede_draws
    (n stream antithetic as_dict min_ max_ rate size prob mean sd : pyobj) t :
  int_object n = true -> int_object stream = true ->
  flag_object antithetic = true -> flag_object as_dict = true ->
  real_object min_ = true -> real_object max_ = true ->
  real_object rate = true ->
  int_object size = true -> real_object prob = true ->
  real_object mean = true -> real_object sd = true ->
  (bad_count_or_stream n stream ->
     vunif n min_ max_ stream antithetic as_dict t = (inl ValueError, t)) /\
  (bad_count_or_stream n stream \/ is_zero rate ->
     vexp n rate stream antithetic as_dict t = (inl ValueError, t)) /\
  (bad_count_or_stream n stream \/ is_zero prob \/ exceeds_one prob ->
     vbinom n size prob stream antithetic as_dict t = (inl ValueError, t)) /\
  (bad_count_or_stream n stream \/ is_zero sd ->
     vnorm n mean sd stream antithetic as_dict t = (inl ValueError, t)).
Proof.
  intros Hn Hs Ha Hd Hmin Hmax Hrate Hsize Hprob Hmean Hsd.
  split; [|split; [|split]]; intros Hbad.
  - rewrite vunif_checked by assumption. some_check_fails.
  - rewrite vexp_checked by assumption. some_check_fails.
  - rewrite vbinom_checked by assumption. some_check_fails.
  - rewrite vnorm_checked by assumption. some_check_fails.
Qed.

(** A valid count and a valid stream pass their range checks. *)
Lemma valid_count_in (n : Z) :
  1 <= n -> out_of_range (PyInt n) (Some (PyInt 1)) None true true = false.
Proof.
  intros Hn. rewrite (out_of_range_int_min (PyInt n) n 1 eq_refl).
  apply Z.ltb_ge. exact Hn.
Qed.

Lemma valid_stream_in (s : Z) :
  0 <= s < numStreams ->
  out_of_range (PyInt s) (Some (PyInt 0)) (Some (PyInt (numStreams - 1))) true true
  = false.
Proof.
  intros Hs. rewrite (out_of_range_int_between (PyInt s) s _ _ eq_refl).
  apply orb_false_iff. split; apply Z.ltb_ge; lia.
Qed.

Lemma valid_count_in_size (size : Z) :
  0 <= size -> out_of_range (PyInt size) (Some (PyInt 0)) None true true = false.
Proof.
  intros Hsize. rewrite (out_of_range_int_min (PyInt size) size 0 eq_refl).
  apply Z.ltb_ge. exact Hsize.
Qed.




(** The shapes a variate function delivers: a scalar for [n = 1]; for
    [n > 1] a list of [n] variates in draw order and, on request, the
    dictionary of the [n] uniforms and their images, position by position. *)
Lemma variate_shapes {X} (n : Z) (antithetic : bool) (q : Q -> X) (g : G) :
  (n = 1 ->
   delivered (PyBool false) q (uniforms_of n antithetic g) =
     Variates (Scalar (q (complement antithetic (unit_draw g))))) /\
  (1 < n ->
   exists us : list Q,
     length us = Z.to_nat n /\
     uniforms_of n antithetic g = Vector us /\
     delivered (PyBool false) q (uniforms_of n antithetic g) =
       Variates (Vector (q <$> us)) /\
     delivered (PyBool true) q (uniforms_of n antithetic g) =
       Dict [("u"%string, Uniforms (Vector us));
             ("x"%string, Inverted (Vector (q <$> us)))]).
Proof.
  split.
  - intros ->. reflexivity.
  - intros Hn. unfold uniforms_of.
    destruct (Z.eqb_spec n 1) as [->|_]; [lia|].
    eexists. split; [|repeat split].
    rewrite length_fmap, length_raw_draws. reflexivity.
Qed.

(** C4, at the input where the code departs from it.  [vunif(1, as_dict=True)]
    returns the dictionary with keys ["u"] and ["x"], but each holds a bare
    scalar, not a sequence of length 1. *)
Theorem single_variate_record_holds_scalars t gen :
  table_ok t -> t !! 0%nat = Some (Some gen) ->
  fst (vunif (PyInt 1) (PyFloat (FFinite 0)) (PyFloat (FFinite 1)) (PyInt 0)
         (PyBool false) (PyBool true) t) =
    inr (Dict
           [("u"%string, Uniforms (Scalar (unit_draw (bit_generator gen))));
            ("x"%string,
             Inverted
               (Scalar (uniform_ppf (PyFloat (FFinite 0)) (PyFloat (FFinite 1))
                          (unit_draw (bit_generator gen)))))]).
Proof.
  intros Hok Hlook. destruct gen as [g].
  assert (0 <= 0 < numStreams) as Hs by (unfold numStreams, _num_streams; lia).
  rewrite vunif_checked by reflexivity.
  rewrite (valid_count_in 1), (valid_stream_in 0 Hs) by lia.
  change (out_of_range (PyFloat (FFinite 1)) (Some (PyFloat (FFinite 0)))
            None true true) with false.
  rewrite (invert_through_at (PyInt 1) (PyInt 0) _ _ _ t 1 0 0%nat g
             eq_refl eq_refl (valid_stream_slot 0 t Hs Hok) Hlook).
  reflexivity.
Qed.

(** The flag check raises [KeyError], not [TypeError], on an [int] or a
    [float]: [type_map] has their types as keys but not [bool]. *)
Lemma flag_check_KeyError (z : Z) (f : pyfloat) :
  _checkType (PyInt z) (Ty T_bool) = throw KeyError /\
  _checkType (PyFloat f) (Ty T_bool) = throw KeyError /\
  _checkType (PyStr "yes") (Ty T_bool) = throw TypeError /\
  _checkType PyNone (Ty T_bool) = throw TypeError.
Proof. repeat split; reflexivity. Qed.

(** C6, at the input where the code departs from it.
    [vnorm(1, 0.0, 1.0, 0, False, "yes")] raises nothing: it draws from
    stream 0 and returns the dictionary.  [vunif] with the same [as_dict]
    raises [TypeError] and leaves the table alone. *)
Theorem vnorm_skips_as_dict_check t gen :
  table_ok t -> t !! 0%nat = Some (Some gen) ->
  vnorm (PyInt 1) (PyFloat (FFinite 0)) (PyFloat (FFinite 1)) (PyInt 0)
    (PyBool false) (PyStr "yes") t =
    (inr (Dict
            [("u"%string, Uniforms (Scalar (unit_draw (bit_generator gen))));
             ("x"%string,
              Inverted
                (Scalar (norm_ppf (PyFloat (FFinite 0)) (PyFloat (FFinite 1))
                           (unit_draw (bit_generator gen)))))]),
     <[0%nat := Some (MkGenerator (advance (bit_generator gen)))]> t) /\
  vunif (PyInt 1) (PyFloat (FFinite 0)) (PyFloat (FFinite 1)) (PyInt 0)
    (PyBool false) (PyStr "yes") t = (inl TypeError, t).
Proof.
  intros Hok Hlook. destruct gen as [g]. split; [|reflexivity].
  assert (0 <= 0 < numStreams) as Hs by (unfold numStreams, _num_streams; lia).
  rewrite vnorm_checked by reflexivity.
  rewrite (valid_count_in 1), (valid_stream_in 0 Hs) by lia.
  change (out_of_range (PyFloat (FFinite 1)) (Some (PyInt 0)) None false true)
    with false.
  rewrite (invert_at (PyInt 1) (PyInt 0) _ _ _ t 1 0 0%nat g eq_refl eq_refl
             (valid_stream_slot 0 t Hs Hok) Hlook).
  reflexivity.
Qed.

(** The call at the end of [generators_continuous.py],
    [vnorm(10, 2.5, 0, -1, True, True)], raises [ValueError] on [sd = 0]
    before anything is drawn. *)
Lemma module_level_vnorm_call t :
  vnorm (PyInt 10) (PyFloat (FFinite 2.5)) (PyInt 0) (PyInt (-1))
    (PyBool true) (PyBool true) t = (inl ValueError, t).
Proof. reflexivity. Qed.

End VariateClaims.

(** * Further properties of the code *)

(** ** The checks of [_error_checks.py] *)

Section CheckProperties.

Import ErrorChecks.

(** X1.  Which objects the numeric type checks accept: against [int], an
    [int] or a [bool]; against [float], [int | float] and [float | int], an
    [int], a [bool] or a [float].  Every other object raises [TypeError]. *)
Theorem checkType_numeric_by_kind (obj : pyobj) :
  _checkType obj (Ty T_int) =
    match obj with
    | PyInt _ | PyBool _ => ok tt
    | _ => throw TypeError
    end /\
  _checkType obj (Ty T_float) =
    match obj with
    | PyInt _ | PyBool _ | PyFloat _ => ok tt
    | _ => throw TypeError
    end /\
  _checkType obj (UnionType [T_int; T_float]) = _checkType obj (Ty T_float) /\
  _checkType obj (UnionType [T_float; T_int]) = _checkType obj (Ty T_float).
Proof. destruct obj; repeat split; reflexivity. Qed.

(** [_checkTypeMap] raises nothing but [KeyError]. *)
Lemma _checkTypeMap_only_KeyError (obj : pyobj) (t : pytype) (e : exn) :
  _checkTypeMap obj t = throw e -> e = KeyError.
Proof.
  destruct obj, t; cbn; intros Hraise; try discriminate Hraise;
    injection Hraise as <-; reflexivity.
Qed.

(** X2.  When the required type is a key of [type_map] ([int], [float] or
    one of the numpy classes), [_checkTypeMap] never raises.  When it is
    not a key ([bool], [str], [complex], [object], [NoneType]), an object
    whose exact type is [int] or [float] raises [KeyError], because
    [type_map[type_]] is then looked up, while [None], a [bool] and a [str]
    get the plain [isinstance] verdict. *)
Theorem checkTypeMap_KeyError_by_kind
    (t : pytype) (b : bool) (z : Z) (f : pyfloat) (str : string) :
  (type_map_mem t = true ->
   forall obj, exists bad, _checkTypeMap obj t = ok bad) /\
  (type_map_mem t = false ->
   _checkTypeMap (PyInt z) t = throw KeyError /\
   _checkTypeMap (PyFloat f) t = throw KeyError /\
   _checkTypeMap PyNone t = ok (negb (isinstance PyNone t)) /\
   _checkTypeMap (PyBool b) t = ok (negb (isinstance (PyBool b) t)) /\
   _checkTypeMap (PyStr str) t = ok (negb (isinstance (PyStr str) t))).
Proof.
  split.
  - intros Hkey obj. destruct t; try discriminate Hkey;
      destruct obj; eexists; reflexivity.
  - intros Hkey. destruct t; try discriminate Hkey; repeat split; reflexivity.
Qed.

(** X3.  The flag check [_checkType(obj, bool)] accepts a [bool], raises
    [KeyError] on an [int] or a [float], and [TypeError] on [None] or a
    [str]. *)
Theorem checkType_flag_by_kind (obj : pyobj) :
  _checkType obj (Ty T_bool) =
    match obj with
    | PyBool _ => ok tt
    | PyInt _ | PyFloat _ => throw KeyError
    | PyNone | PyStr _ => throw TypeError
    end.
Proof. destruct obj; reflexivity. Qed.

(** Every outcome of [_checkType] is a pass, a [TypeError] or a [KeyError]. *)
Lemma union_good_outcomes (obj : pyobj) (args : list pytype) :
  forall good : bool,
    (exists b, union_good obj args good = ok b) \/
    union_good obj args good = throw KeyError.
Proof.
  induction args as [|t rest IH]; intros good; cbn [union_good].
  - left. eexists. reflexivity.
  - destruct (_checkTypeMap obj t) as [e|bad] eqn:Hmap.
    + right. apply _checkTypeMap_only_KeyError in Hmap as ->.
      reflexivity.
    + cbn [rbind]. apply IH.
Qed.

Lemma _checkType_outcomes (obj : pyobj) (type_ : type_arg) :
  _checkType obj type_ = ok tt \/
  _checkType obj type_ = throw TypeError \/
  _checkType obj type_ = throw KeyError.
Proof.
  unfold _checkType. destruct type_ as [t|args].
  - destruct (_checkTypeMap obj t) as [e|bad] eqn:Hmap.
    + apply _checkTypeMap_only_KeyError in Hmap as ->.
      right. right. reflexivity.
    + destruct bad; [right; left|left]; reflexivity.
  - destruct (union_good_outcomes obj args false) as [[b Hb]|Hkey].
    + rewrite Hb. destruct b; [left|right; left]; reflexivity.
    + rewrite Hkey. right. right. reflexivity.
Qed.

(** X4.  [_checkRange] type-checks its object only when a bound is given:
    with no bound every object passes, a string included; with a bound,
    [None] and strings raise [TypeError] before any comparison. *)
Theorem checkRange_checks_type_with_bound
    (obj bound : pyobj) (other : option pyobj) (include_min include_max : bool) :
  _checkRange obj None None include_min include_max = ok tt /\
  (real_object obj = false ->
   _checkRange obj (Some bound) other include_min include_max = throw TypeError /\
   _checkRange obj other (Some bound) include_min include_max = throw TypeError).
Proof.
  split; [reflexivity|].
  intros Hobj. destruct obj; try discriminate Hobj;
    destruct other; split; reflexivity.
Qed.

(** X5.  On integers, [_checkRange] passes exactly the values inside the
    bounds, each bound counted in or out as its flag says, and raises
    [ValueError] on the others. *)
Theorem checkRange_int_bounds (z lo hi : Z) (include_min include_max : bool) :
  _checkRange (PyInt z) (Some (PyInt lo)) (Some (PyInt hi))
    include_min include_max =
    (if (if include_min then lo <=? z else lo <? z)
        && (if include_max then z <=? hi else z <? hi)
     then ok tt else throw ValueError) /\
  _checkRange (PyInt z) (Some (PyInt lo)) None include_min include_max =
    (if (if include_min then lo <=? z else lo <? z)
     then ok tt else throw ValueError) /\
  _checkRange (PyInt z) None (Some (PyInt hi)) include_min include_max =
    (if (if include_max then z <=? hi else z <? hi)
     then ok tt else throw ValueError).
Proof.
  assert (forall b : pyobj, None = Some b -> real_object b = true) as Hnone
    by discriminate.
  assert (forall (c : Z) (b : pyobj),
             Some (PyInt c) = Some b -> real_object b = true) as Hsome
    by (intros c b [= <-]; reflexivity).
  rewrite !_checkRange_verdict by first [reflexivity | apply Hnone | apply Hsome].
  unfold out_of_range, num_lt, num_le. cbn [num_value].
  rewrite !float_lt_int, !float_le_int.
  rewrite (Z.leb_antisym z lo), (Z.leb_antisym hi z),
    (Z.ltb_antisym z lo), (Z.ltb_antisym hi z).
  repeat split; destruct include_min, include_max;
    repeat match goal with |- context [?a <? ?b] => destruct (a <? b) end;
    repeat match goal with |- context [?a <=? ?b] => destruct (a <=? b) end;
    reflexivity.
Qed.

(** X6.  A NaN passes every range check, whatever the numeric bounds and
    their flags: all its comparisons are false. *)
Theorem checkRange_passes_NaN
    (min_ max_ : option pyobj) (include_min include_max : bool) :
  (forall lo, min_ = Some lo -> real_object lo = true) ->
  (forall hi, max_ = Some hi -> real_object hi = true) ->
  _checkRange (PyFloat FNaN) min_ max_ include_min include_max = ok tt.
Proof.
  intros Hlo Hhi. rewrite _checkRange_verdict by first [reflexivity | assumption].
  unfold out_of_range, num_lt, num_le. cbn [num_value].
  destruct min_ as [lo|], max_ as [hi|];
    try (destruct (real_object_num lo (Hlo lo eq_refl)) as [x ->]);
    try (destruct (real_object_num hi (Hhi hi eq_refl)) as [y ->]);
    destruct include_min, include_max;
    try destruct x as [? | [] |]; try destruct y as [? | [] |]; reflexivity.
Qed.

End CheckProperties.

(** ** Draws and the stream table *)

Section DrawProperties.

Context {G : Type} `{BitGenerator G}.

Local Open Scope state_exn_scope.

Implicit Types (t : table G) (g : G) (gen : Generator G).

(** With no pass of the loop to run, nothing is drawn. *)
Lemma _generateUniforms_no_pass (n i : Z) (antithetic : bool) t :
  n <= 0 ->
  _generateUniforms n i antithetic t = (inr (Vector []), t).
Proof.
  intros Hn. unfold _generateUniforms.
  destruct (Z.eqb_spec n 1) as [->|_]; [lia|].
  replace (Z.to_nat n) with 0%nat by lia. reflexivity.
Qed.

(** X7.  A count below 1 draws nothing: [_generateUniforms] returns the
    empty list and leaves the table alone, whatever the stream index, valid
    or not, and whatever the table holds. *)
Theorem no_draws_for_count_below_one (n i : Z) (antithetic : bool) t :
  n <= 0 ->
  _generateUniforms n i antithetic t = (inr (Vector []), t).
Proof.
  intros Hn. unfold _generateUniforms.
  destruct (Z.eqb_spec n 1) as [->|_]; [lia|].
  replace (Z.to_nat n) with 0%nat by lia. reflexivity.
Qed.

(** A subscript always designates a position inside the list. *)
Lemma list_index_bound (len : nat) (i : Z) (j : nat) :
  list_index len i = Some j -> (j < len)%nat.
Proof.
  unfold list_index. intros Hidx.
  destruct ((0 <=? (if i <? 0 then i + Z.of_nat len else i)) &&
            ((if i <? 0 then i + Z.of_nat len else i) <? Z.of_nat len)) eqn:Hin;
    [|discriminate Hidx].
  injection Hidx as <-. apply andb_true_iff in Hin as [Hlo Hhi].
  apply Z.leb_le in Hlo. apply Z.ltb_lt in Hhi. lia.
Qed.

(** A draw from an unseeded slot raises and changes nothing. *)
Lemma rng_uniform_unseeded (a b : Q) (i : Z) (j : nat) t :
  list_index (length t) i = Some j ->
  t !! j = Some None ->
  rng_uniform a b i t = (inl AttributeError, t).
Proof.
  intros Hidx Hlook. unfold rng_uniform, bind, streams_getitem.
  rewrite Hidx, Hlook. reflexivity.
Qed.

(** What [_generateUniforms] does with a positive count, by the state of the
    slot its subscript designates. *)
Lemma _generateUniforms_cases (n i : Z) (antithetic : bool) t :
  1 <= n ->
  match list_index (length t) i with
  | None => _generateUniforms n i antithetic t = (inl IndexError, t)
  | Some j =>
      match t !! j with
      | Some (Some gen) =>
          _generateUniforms n i antithetic t =
            (inr (uniforms_of n antithetic (bit_generator gen)),
             <[j := Some (MkGenerator
                            (advance_by (Z.to_nat n) (bit_generator gen)))]> t)
      | _ => _generateUniforms n i antithetic t = (inl AttributeError, t)
      end
  end.
Proof.
  intros Hn.
  assert (exists c, Z.to_nat n = S c) as [c Hc] by (exists (Z.to_nat n - 1)%nat; lia).
  destruct (list_index (length t) i) as [j|] eqn:Hidx.
  - pose proof (list_index_bound _ _ _ Hidx) as Hj.
    destruct (t !! j) as [[[g]|]|] eqn:Hlook.
    + apply _generateUniforms_at; assumption.
    + unfold _generateUniforms, draw_one.
      destruct (n =? 1); [|rewrite Hc; cbn [draw_loop]; unfold draw_one];
        unfold bind; rewrite (rng_uniform_unseeded 0 1 i j t Hidx Hlook);
        reflexivity.
    + apply lookup_ge_None in Hlook. lia.
  - unfold _generateUniforms, draw_one.
    destruct (n =? 1); [|rewrite Hc; cbn [draw_loop]; unfold draw_one];
      unfold bind; rewrite (rng_uniform_no_slot 0 1 i t Hidx); reflexivity.
Qed.

(** X8.  [_generateUniforms] is all or nothing: when it raises, the error is
    an [IndexError] or an [AttributeError] of the first draw, and no stream
    has been advanced. *)
Theorem failed_generation_draws_nothing (n i : Z) (antithetic : bool) t (e : exn) :
  fst (_generateUniforms n i antithetic t) = inl e ->
  snd (_generateUniforms n i antithetic t) = t /\
  (e = IndexError \/ e = AttributeError).
Proof.
  intros Hfail. destruct (Z.le_gt_cases n 0) as [Hn|Hn].
  - rewrite _generateUniforms_no_pass in Hfail by exact Hn. discriminate Hfail.
  - pose proof (_generateUniforms_cases n i antithetic t ltac:(lia)) as Hcases.
    destruct (list_index (length t) i) as [j|].
    + destruct (t !! j) as [[gen|]|]; rewrite Hcases in *; cbn [fst snd] in *;
        try discriminate Hfail; injection Hfail as <-; auto.
    + rewrite Hcases in *. cbn [fst snd] in *. injection Hfail as <-. auto.
Qed.

Lemma advance_by_add (m n : nat) :
  forall g, advance_by (m + n) g = advance_by n (advance_by m g).
Proof.
  induction m as [|m IH]; intros g; cbn [advance_by Nat.add]; [reflexivity|].
  apply IH.
Qed.

Lemma raw_draws_add (m n : nat) :
  forall g, raw_draws (m + n) g = raw_draws m g ++ raw_draws n (advance_by m g).
Proof.
  induction m as [|m IH]; intros g; cbn [raw_draws advance_by Nat.add app];
    [reflexivity|].
  rewrite IH. reflexivity.
Qed.

(** X9.  Splitting a batch changes nothing: drawing [m] and then [n]
    uniforms from a stream yields, in order, the same values as drawing
    [m + n] at once, and leaves the same table. *)
Theorem batches_concatenate (m n s : Z) (antithetic : bool) t gen :
  1 <= m -> 1 <= n -> 0 <= s < numStreams -> table_ok t ->
  t !! Z.to_nat s = Some (Some gen) ->
  exists first second whole : shape Q,
    fst (_generateUniforms m s antithetic t) = inr first /\
    fst (_generateUniforms n s antithetic
           (snd (_generateUniforms m s antithetic t))) = inr second /\
    fst (_generateUniforms (m + n) s antithetic t) = inr whole /\
    values whole = values first ++ values second /\
    snd (_generateUniforms n s antithetic
           (snd (_generateUniforms m s antithetic t)))
    = snd (_generateUniforms (m + n) s antithetic t).
Proof.
  intros Hm Hn Hs Hok Hlook.
  assert (Z.to_nat s < length t)%nat as Hlt by (eapply lookup_lt_Some; eassumption).
  rewrite (_generateUniforms_valid m s antithetic t gen Hs Hok Hlook).
  rewrite (_generateUniforms_valid (m + n) s antithetic t gen Hs Hok Hlook).
  cbn [fst snd].
  rewrite (_generateUniforms_valid n s antithetic _
             (MkGenerator (advance_by (Z.to_nat m) (bit_generator gen))) Hs).
  - cbn [fst snd bit_generator]. do 3 eexists.
    split; [reflexivity|]. split; [reflexivity|]. split; [reflexivity|].
    rewrite !values_uniforms_of, list_insert_insert_eq.
    replace (Z.to_nat (m + n)) with (Z.to_nat m + Z.to_nat n)%nat by lia.
    rewrite raw_draws_add, advance_by_add, fmap_app. split; reflexivity.
  - unfold table_ok. rewrite length_insert. exact Hok.
  - apply list_lookup_insert_eq. exact Hlt.
Qed.

(** X10.  Streams do not interfere: draws from two different valid streams
    return the same values in either order, and both orders leave the same
    table. *)
Theorem distinct_streams_commute
    (m n s1 s2 : Z) (a1 a2 : bool) t gen1 gen2 :
  1 <= m -> 1 <= n ->
  0 <= s1 < numStreams -> 0 <= s2 < numStreams -> s1 <> s2 ->
  table_ok t ->
  t !! Z.to_nat s1 = Some (Some gen1) ->
  t !! Z.to_nat s2 = Some (Some gen2) ->
  let draw1 := _generateUniforms m s1 a1 in
  let draw2 := _generateUniforms n s2 a2 in
  fst (draw1 (snd (draw2 t))) = fst (draw1 t) /\
  fst (draw2 (snd (draw1 t))) = fst (draw2 t) /\
  snd (draw2 (snd (draw1 t))) = snd (draw1 (snd (draw2 t))).
Proof.
  intros Hm Hn Hs1 Hs2 Hneq Hok Hlook1 Hlook2 draw1 draw2. subst draw1 draw2.
  assert (Z.to_nat s1 <> Z.to_nat s2) as Hneq' by lia.
  rewrite (_generateUniforms_valid m s1 a1 t gen1 Hs1 Hok Hlook1).
  rewrite (_generateUniforms_valid n s2 a2 t gen2 Hs2 Hok Hlook2).
  cbn [fst snd].
  rewrite (_generateUniforms_valid m s1 a1 _ gen1 Hs1).
  - rewrite (_generateUniforms_valid n s2 a2 _ gen2 Hs2).
    + cbn [fst snd]. split; [reflexivity|]. split; [reflexivity|].
      apply list_insert_insert_ne. lia.
    + unfold table_ok. rewrite length_insert. exact Hok.
    + rewrite list_lookup_insert_ne by lia. exact Hlook2.
  - unfold table_ok. rewrite length_insert. exact Hok.
  - rewrite list_lookup_insert_ne by lia. exact Hlook1.
Qed.

(** X11.  Before any seeding the table holds [None] in every slot: a draw
    through any subscript Python accepts raises [AttributeError], and the
    table stays as it was. *)
Theorem unseeded_draw_raises (n i : Z) (antithetic : bool) :
  1 <= n -> - numStreams <= i < numStreams ->
  _generateUniforms n i antithetic (_streams_init (G := G))
  = (inl AttributeError, _streams_init).
Proof.
  intros Hn Hi.
  pose proof (_generateUniforms_cases n i antithetic (_streams_init (G := G)) Hn)
    as Hcases.
  assert (length (_streams_init (G := G)) = Z.to_nat _num_streams) as Hlen
    by (unfold _streams_init; apply length_replicate).
  assert (exists j, list_index (length (_streams_init (G := G))) i = Some j)
    as [j Hidx].
  { rewrite Hlen. unfold numStreams, _num_streams in *.
    destruct (Z.lt_ge_cases i 0).
    - eexists. apply list_index_negative. lia.
    - eexists. apply list_index_in_range. lia. }
  rewrite Hidx in Hcases.
  assert (_streams_init (G := G) !! j = Some None) as Hlook.
  { apply list_index_bound in Hidx. unfold _streams_init in *.
    rewrite length_replicate in Hidx. apply lookup_replicate_2. exact Hidx. }
  rewrite Hlook in Hcases. exact Hcases.
Qed.

End DrawProperties.

(** ** Seeding and the size of the table *)

Section SeedProperties.

Context {G : Type} `{BitGenerator G} `{Quantiles}.

Import ErrorChecks.

Local Open Scope state_exn_scope.

Implicit Types (t : table G).

(** [set_seed] on each kind of seed object. *)
Lemma set_seed_by_kind (seed : pyobj) (os_entropy : Z) t :
  set_seed seed os_entropy t =
    match seed with
    | PyNone => rng_set_seed None os_entropy t
    | PyInt s => rng_set_seed (Some s) os_entropy t
    | PyBool b => rng_set_seed (Some (if b then 1 else 0)) os_entropy t
    | PyFloat _ | PyStr _ => (inl TypeError, t)
    end.
Proof. destruct seed; reflexivity. Qed.

(** X12.  [set_seed] is all or nothing on the class's table: a [float] or
    [str] seed raises [TypeError], and whenever the call raises, from the
    type check or from numpy refusing the seed, every entry is as before. *)
Theorem failed_set_seed_keeps_table (seed : pyobj) (os_entropy : Z) t (e : exn) :
  table_ok t ->
  (int_object seed = false -> seed <> PyNone ->
   set_seed seed os_entropy t = (inl TypeError, t)) /\
  (fst (set_seed seed os_entropy t) = inl e ->
   snd (set_seed seed os_entropy t) = t).
Proof.
  intros Hok. split.
  - intros Hkind Hnone. destruct seed; try discriminate Hkind; try reflexivity.
    contradiction Hnone. reflexivity.
  - rewrite set_seed_by_kind.
    destruct seed as [|b|s|f|s]; try (intros _; reflexivity);
      rewrite rng_set_seed_spec by exact Hok;
      destruct (seeded _); cbn [fst snd]; intros Hfail;
      try discriminate Hfail; reflexivity.
Qed.

Lemma keeps_size_vunif (n min_ max_ stream antithetic as_dict : pyobj) :
  keeps_size (vunif (G := G) n min_ max_ stream antithetic as_dict).
Proof.
  unfold vunif. cbv zeta.
  do 9 (apply keeps_size_bind; [apply keeps_size_lift|intros _]).
  apply keeps_size_bind; [apply keeps_size_generate|intros u].
  apply keeps_size_bind; [apply keeps_size_lift|intros _].
  apply keeps_size_deliver.
Qed.

Lemma keeps_size_vnorm (n mean sd stream antithetic as_dict : pyobj) :
  keeps_size (vnorm (G := G) n mean sd stream antithetic as_dict).
Proof.
  unfold vnorm. cbv zeta.
  do 9 (apply keeps_size_bind; [apply keeps_size_lift|intros _]).
  apply keeps_size_bind; [apply keeps_size_generate|intros u].
  apply keeps_size_deliver.
Qed.

Lemma keeps_size_vbinom (n size prob stream antithetic as_dict : pyobj) :
  keeps_size (vbinom (G := G) n size prob stream antithetic as_dict).
Proof.
  unfold vbinom. cbv zeta.
  do 10 (apply keeps_size_bind; [apply keeps_size_lift|intros _]).
  apply keeps_size_bind; [apply keeps_size_generate|intros u].
  apply keeps_size_bind; [apply keeps_size_lift|intros ppf].
  apply keeps_size_deliver.
Qed.

(** X13.  The table never changes size: from a table of [numStreams()]
    entries, [set_seed], [_generateUniforms] and the four variate functions
    leave a table of [numStreams()] entries, whatever their arguments and
    whether they return or raise. *)
Theorem table_size_is_kept
    (seed n i stream antithetic as_dict p1 p2 : pyobj) (os_entropy k s : Z)
    (a : bool) t :
  table_ok t ->
  table_ok (snd (set_seed seed os_entropy t)) /\
  table_ok (snd (_generateUniforms k s a t)) /\
  table_ok (snd (vunif n p1 p2 stream antithetic as_dict t)) /\
  table_ok (snd (vexp n p1 stream antithetic as_dict t)) /\
  table_ok (snd (vnorm n p1 p2 stream antithetic as_dict t)) /\
  table_ok (snd (vbinom n p1 p2 stream antithetic as_dict t)).
Proof.
  intros Hok. unfold table_ok in *.
  split; [|split; [|split; [|split; [|split]]]].
  - rewrite set_seed_by_kind.
    destruct seed as [|b|z|f|z]; try exact Hok;
      rewrite rng_set_seed_spec by exact Hok;
      destruct (seeded _); cbn [snd]; first [exact Hok | apply jump_table_ok].
  - rewrite keeps_size__generateUniforms. exact Hok.
  - rewrite keeps_size_vunif. exact Hok.
  - rewrite keeps_size_vexp. exact Hok.
  - rewrite keeps_size_vnorm. exact Hok.
  - rewrite keeps_size_vbinom. exact Hok.
Qed.

End SeedProperties.

(** ** The variate functions *)

Section VariateProperties.

Context {G : Type} `{BitGenerator G} `{Quantiles}.

Import ErrorChecks.

Local Open Scope state_exn_scope.

Implicit Types (t : table G) (g : G).

Lemma ordered_floats_in (a b : Q) :
  (a <= b)%Q ->
  out_of_range (PyFloat (FFinite b)) (Some (PyFloat (FFinite a))) None true true
  = false.
Proof.
  intros Hab. unfold out_of_range, num_lt. cbn [num_value float_lt].
  apply Qle_bool_iff in Hab. rewrite Hab. reflexivity.
Qed.

Lemma positive_float_in (r : Q) :
  (0 < r)%Q ->
  out_of_range (PyFloat (FFinite r)) (Some (PyInt 0)) None false true = false.
Proof.
  intros Hr. unfold out_of_range, num_le. cbn [num_value float_le].
  destruct (Qle_bool r (inject_Z 0)) eqn:Hle; [|reflexivity].
  apply Qle_bool_iff in Hle. exfalso. apply (Qlt_not_le _ _ Hr). exact Hle.
Qed.

Lemma probability_in (p : Q) :
  (0 < p <= 1)%Q ->
  out_of_range (PyFloat (FFinite p)) (Some (PyInt 0)) (Some (PyInt 1)) false true
  = false.
Proof.
  intros [Hlo Hhi]. unfold out_of_range, num_le, num_lt.
  cbn [num_value float_le float_lt].
  destruct (Qle_bool p (inject_Z 0)) eqn:Hle.
  - apply Qle_bool_iff in Hle. exfalso. apply (Qlt_not_le _ _ Hlo). exact Hle.
  - apply Qle_bool_iff in Hhi. change (inject_Z 1) with 1%Q. rewrite Hhi.
    reflexivity.
Qed.

Lemma invert_valid {X} (n s : Z) (antithetic : bool) (as_dict : pyobj)
    (q : Q -> X) t g :
  valid_call n s t g ->
  invert (PyInt n) (PyInt s) (PyBool antithetic) as_dict q t =
    (inr (delivered as_dict q (uniforms_of n antithetic g)),
     <[Z.to_nat s := Some (MkGenerator (advance_by (Z.to_nat n) g))]> t).
Proof.
  intros [Hn Hs Hok Hlook].
  apply (invert_at (PyInt n) (PyInt s) (PyBool antithetic) as_dict q t n s
           (Z.to_nat s) g eq_refl eq_refl (valid_stream_slot s t Hs Hok) Hlook).
Qed.

Lemma vunif_valid (n s : Z) (a b : Q) (antithetic as_dict : bool) t g :
  valid_call n s t g -> (a <= b)%Q ->
  vunif (PyInt n) (PyFloat (FFinite a)) (PyFloat (FFinite b)) (PyInt s)
    (PyBool antithetic) (PyBool as_dict) t =
    (inr (delivered (PyBool as_dict)
            (uniform_ppf (PyFloat (FFinite a)) (PyFloat (FFinite b)))
            (uniforms_of n antithetic g)),
     <[Z.to_nat s := Some (MkGenerator (advance_by (Z.to_nat n) g))]> t).
Proof.
  intros Hcall Hab. rewrite vunif_checked by reflexivity.
  rewrite (valid_count_in n (valid_count _ _ _ _ Hcall)),
    (ordered_floats_in a b Hab),
    (valid_stream_in s (valid_stream _ _ _ _ Hcall)).
  apply invert_valid. exact Hcall.
Qed.

Lemma vexp_valid (n s : Z) (r : Q) (antithetic as_dict : bool) t g :
  valid_call n s t g -> (0 < r)%Q ->
  vexp (PyInt n) (PyFloat (FFinite r)) (PyInt s)
    (PyBool antithetic) (PyBool as_dict) t =
    (inr (delivered (PyBool as_dict) (expon_ppf (PyFloat (FFinite r)))
            (uniforms_of n antithetic g)),
     <[Z.to_nat s := Some (MkGenerator (advance_by (Z.to_nat n) g))]> t).
Proof.
  intros Hcall Hr. rewrite vexp_checked by reflexivity.
  rewrite (valid_count_in n (valid_count _ _ _ _ Hcall)),
    (positive_float_in r Hr),
    (valid_stream_in s (valid_stream _ _ _ _ Hcall)).
  apply invert_valid. exact Hcall.
Qed.

Lemma vnorm_valid (n s : Z) (mu sd : Q) (antithetic : bool) (as_dict : pyobj) t g :
  valid_call n s t g -> (0 < sd)%Q ->
  vnorm (PyInt n) (PyFloat (FFinite mu)) (PyFloat (FFinite sd)) (PyInt s)
    (PyBool antithetic) as_dict t =
    (inr (delivered as_dict
            (norm_ppf (PyFloat (FFinite mu)) (PyFloat (FFinite sd)))
            (uniforms_of n antithetic g)),
     <[Z.to_nat s := Some (MkGenerator (advance_by (Z.to_nat n) g))]> t).
Proof.
  intros Hcall Hsd. rewrite vnorm_checked by reflexivity.
  rewrite (valid_count_in n (valid_count _ _ _ _ Hcall)),
    (positive_float_in sd Hsd),
    (valid_stream_in s (valid_stream _ _ _ _ Hcall)).
  apply invert_valid. exact Hcall.
Qed.

Lemma vbinom_valid (n s size : Z) (p : Q) (antithetic as_dict : bool) t g :
  valid_call n s t g -> 0 <= size -> (0 < p <= 1)%Q ->
  vbinom (PyInt n) (PyInt size) (PyFloat (FFinite p)) (PyInt s)
    (PyBool antithetic) (PyBool as_dict) t =
    (match binom_ppf (PyInt size) (PyFloat (FFinite p)) with
     | inl e => inl e
     | inr q => inr (delivered (PyBool as_dict) q (uniforms_of n antithetic g))
     end,
     <[Z.to_nat s := Some (MkGenerator (advance_by (Z.to_nat n) g))]> t).
Proof.
  intros Hcall Hsize Hp. rewrite vbinom_checked by reflexivity.
  rewrite (valid_count_in n (valid_count _ _ _ _ Hcall)),
    (valid_count_in_size size Hsize), (probability_in p Hp),
    (valid_stream_in s (valid_stream _ _ _ _ Hcall)).
  destruct Hcall as [Hn Hs Hok Hlook].
  apply (invert_through_at (PyInt n) (PyInt s) (PyBool antithetic)
           (PyBool as_dict) _ t n s (Z.to_nat s) g eq_refl eq_refl
           (valid_stream_slot s t Hs Hok) Hlook).
Qed.

(** What is delivered for more than one uniform. *)
Lemma delivered_several {X} (n : Z) (antithetic as_dict : bool) (q : Q -> X) g :
  1 < n ->
  delivered (PyBool as_dict) q (uniforms_of n antithetic g) =
    several_delivered as_dict q
      (complement antithetic <$> raw_draws (Z.to_nat n) g).
Proof.
  intros Hn. unfold uniforms_of.
  destruct (Z.eqb_spec n 1) as [->|_]; [lia|].
  destruct as_dict; reflexivity.
Qed.

(** X14.  For [n > 1] and valid arguments with finite [float] parameters,
    each variate function returns the quantile images of the [n] uniforms
    it drew, in draw order: as a list of [n] variates, or with [as_dict] as
    the dictionary whose keys are ["u"] and ["x"], holding the uniforms and
    their images position by position.  For [vbinom] this is so when scipy
    takes [size] and [prob] and yields the quantile function [qb]. *)
Theorem several_variates_in_draw_order
    (n s size : Z) (a b r mu sd p : Q) (qb : Q -> Z)
    (antithetic as_dict : bool) t g :
  1 < n -> 0 <= s < numStreams -> table_ok t ->
  t !! Z.to_nat s = Some (Some (MkGenerator g)) ->
  (a <= b)%Q -> (0 < r)%Q -> (0 < sd)%Q -> 0 <= size -> (0 < p <= 1)%Q ->
  binom_ppf (PyInt size) (PyFloat (FFinite p)) = inr qb ->
  let us := complement antithetic <$> raw_draws (Z.to_nat n) g in
  let returned {X} (q : Q -> X) : result (variate_result X) :=
    ok (several_delivered as_dict q us) in
  length us = Z.to_nat n /\
  fst (vunif (PyInt n) (PyFloat (FFinite a)) (PyFloat (FFinite b)) (PyInt s)
         (PyBool antithetic) (PyBool as_dict) t)
  = returned (uniform_ppf (PyFloat (FFinite a)) (PyFloat (FFinite b))) /\
  fst (vexp (PyInt n) (PyFloat (FFinite r)) (PyInt s)
         (PyBool antithetic) (PyBool as_dict) t)
  = returned (expon_ppf (PyFloat (FFinite r))) /\
  fst (vnorm (PyInt n) (PyFloat (FFinite mu)) (PyFloat (FFinite sd)) (PyInt s)
         (PyBool antithetic) (PyBool as_dict) t)
  = returned (norm_ppf (PyFloat (FFinite mu)) (PyFloat (FFinite sd))) /\
  fst (vbinom (PyInt n) (PyInt size) (PyFloat (FFinite p)) (PyInt s)
         (PyBool antithetic) (PyBool as_dict) t)
  = returned qb.
Proof.
  intros Hn Hs Hok Hlook Hab Hr Hsd Hsize Hp Hqb us returned.
  assert (valid_call n s t g) as Hcall by (constructor; [lia|assumption..]).
  subst us returned. cbv beta.
  split; [rewrite length_fmap, length_raw_draws; reflexivity|].
  rewrite (vunif_valid n s a b antithetic as_dict t g Hcall Hab),
    (vexp_valid n s r antithetic as_dict t g Hcall Hr),
    (vnorm_valid n s mu sd antithetic (PyBool as_dict) t g Hcall Hsd),
    (vbinom_valid n s size p antithetic as_dict t g Hcall Hsize Hp), Hqb.
  cbn [fst]. rewrite !(delivered_several n antithetic as_dict _ g Hn).
  repeat split; reflexivity.
Qed.

(** X15.  A variate function that returns has advanced the chosen stream by
    exactly [n] draws and touched no other entry, with or without
    [as_dict] and [antithetic]. *)
Theorem variates_advance_one_stream
    (n s size : Z) (a b r mu sd p : Q) (antithetic as_dict : bool) t g :
  1 <= n -> 0 <= s < numStreams -> table_ok t ->
  t !! Z.to_nat s = Some (Some (MkGenerator g)) ->
  (a <= b)%Q -> (0 < r)%Q -> (0 < sd)%Q -> 0 <= size -> (0 < p <= 1)%Q ->
  let after := <[Z.to_nat s := Some (MkGenerator (advance_by (Z.to_nat n) g))]> t in
  (forall j : nat, j <> Z.to_nat s -> after !! j = t !! j) /\
  snd (vunif (PyInt n) (PyFloat (FFinite a)) (PyFloat (FFinite b)) (PyInt s)
         (PyBool antithetic) (PyBool as_dict) t) = after /\
  snd (vexp (PyInt n) (PyFloat (FFinite r)) (PyInt s)
         (PyBool antithetic) (PyBool as_dict) t) = after /\
  snd (vnorm (PyInt n) (PyFloat (FFinite mu)) (PyFloat (FFinite sd)) (PyInt s)
         (PyBool antithetic) (PyBool as_dict) t) = after /\
  snd (vbinom (PyInt n) (PyInt size) (PyFloat (FFinite p)) (PyInt s)
         (PyBool antithetic) (PyBool as_dict) t) = after.
Proof.
  intros Hn Hs Hok Hlook Hab Hr Hsd Hsize Hp after.
  assert (valid_call n s t g) as Hcall by (constructor; assumption).
  subst after.
  split; [intros j Hj; apply list_lookup_insert_ne; congruence|].
  rewrite (vunif_valid n s a b antithetic as_dict t g Hcall Hab),
    (vexp_valid n s r antithetic as_dict t g Hcall Hr),
    (vnorm_valid n s mu sd antithetic (PyBool as_dict) t g Hcall Hsd),
    (vbinom_valid n s size p antithetic as_dict t g Hcall Hsize Hp).
  repeat split; reflexivity.
Qed.

(** X16.  A [bool] count or stream is taken as the integer it equals:
    [True] as 1 and [False] as 0, in all four functions and for all other
    arguments. *)
Theorem bool_is_taken_as_int (bn bs : bool) (p1 p2 antithetic as_dict : pyobj) :
  let n := PyInt (if bn then 1 else 0) in
  let stream := PyInt (if bs then 1 else 0) in
  vunif (PyBool bn) p1 p2 (PyBool bs) antithetic as_dict
  = vunif (G := G) n p1 p2 stream antithetic as_dict /\
  vexp (PyBool bn) p1 (PyBool bs) antithetic as_dict
  = vexp (G := G) n p1 stream antithetic as_dict /\
  vnorm (PyBool bn) p1 p2 (PyBool bs) antithetic as_dict
  = vnorm (G := G) n p1 p2 stream antithetic as_dict /\
  vbinom (PyBool bn) p1 p2 (PyBool bs) antithetic as_dict
  = vbinom (G := G) n p1 p2 stream antithetic as_dict.
Proof. destruct bn, bs; repeat split; reflexivity. Qed.

Lemma float_lt_le (x y : pyfloat) : float_lt x y = true -> float_le x y = true.
Proof.
  destruct x as [p|[]|], y as [q|[]|]; cbn; intros Hlt;
    try discriminate Hlt; try reflexivity.
  apply Qle_bool_iff. apply Qlt_le_weak. apply Qnot_le_lt.
  intros Hle. apply Qle_bool_iff in Hle. rewrite Hle in Hlt. discriminate Hlt.
Qed.

Lemma below_out_closed (v lo : pyobj) (hi : option pyobj) :
  num_lt v lo = true -> out_of_range v (Some lo) hi true true = true.
Proof. unfold out_of_range. intros ->. reflexivity. Qed.

Lemma below_out_open (v lo : pyobj) (hi : option pyobj) :
  num_lt v lo = true -> out_of_range v (Some lo) hi false true = true.
Proof.
  unfold out_of_range, num_lt, num_le. intros Hlt.
  destruct (num_value v) as [x|]; [|discriminate Hlt].
  destruct (num_value lo) as [y|]; [|discriminate Hlt].
  rewrite (float_lt_le x y Hlt). reflexivity.
Qed.

(** Settle a chain of range verdicts of which the named one is true. *)
Ltac range_check_fails Hout :=
  repeat match goal with
         | |- (if ?c then _ else _) = _ =>
             let E := fresh "E" in destruct c eqn:E; [reflexivity|]
         end;
  exfalso; rewrite Hout in *; discriminate.

(** X17.  The range rules beyond zero: with arguments of the right kinds,
    [vunif] raises [ValueError] when [max_] is below [min_], [vexp] on a
    negative [rate], [vbinom] on a negative [size] or [prob], [vnorm] on a
    negative [sd]; the stream table is left as it was. *)
Theorem negative_parameters_raise
    (n stream antithetic as_dict min_ max_ rate size prob mean sd : pyobj) t :
  int_object n = true -> int_object stream = true ->
  flag_object antithetic = true -> flag_object as_dict = true ->
  real_object min_ = true -> real_object max_ = true ->
  real_object rate = true ->
  int_object size = true -> real_object prob = true ->
  real_object mean = true -> real_object sd = true ->
  (num_lt max_ min_ = true ->
   vunif n min_ max_ stream antithetic as_dict t = (inl ValueError, t)) /\
  (num_lt rate (PyInt 0) = true ->
   vexp n rate stream antithetic as_dict t = (inl ValueError, t)) /\
  (num_lt size (PyInt 0) = true \/ num_lt prob (PyInt 0) = true ->
   vbinom n size prob stream antithetic as_dict t = (inl ValueError, t)) /\
  (num_lt sd (PyInt 0) = true ->
   vnorm n mean sd stream antithetic as_dict t = (inl ValueError, t)).
Proof.
  intros Hn Hs Ha Hd Hmin Hmax Hrate Hsize Hprob Hmean Hsd.
  split; [|split; [|split]]; intros Hbad.
  - rewrite vunif_checked by assumption.
    pose proof (below_out_closed max_ min_ None Hbad) as Hout.
    range_check_fails Hout.
  - rewrite vexp_checked by assumption.
    pose proof (below_out_open rate (PyInt 0) None Hbad) as Hout.
    range_check_fails Hout.
  - rewrite vbinom_checked by assumption. destruct Hbad as [Hbad|Hbad].
    + pose proof (below_out_closed size (PyInt 0) None Hbad) as Hout.
      range_check_fails Hout.
    + pose proof (below_out_open prob (PyInt 0) (Some (PyInt 1)) Hbad) as Hout.
      range_check_fails Hout.
  - rewrite vnorm_checked by assumption.
    pose proof (below_out_open sd (PyInt 0) None Hbad) as Hout.
    range_check_fails Hout.
Qed.

(** X18.  [vnorm] takes an [as_dict] that is [None], a [bool], an [int], a
    [float] or a [str] by its truth value: a valid call returns the
    dictionary when the object is truthy and the variates alone when it is
    falsy, and does not raise on it. *)
Theorem vnorm_takes_any_as_dict
    (n s : Z) (mu sd : Q) (antithetic : bool) (as_dict : pyobj) t g :
  1 <= n -> 0 <= s < numStreams -> table_ok t ->
  t !! Z.to_nat s = Some (Some (MkGenerator g)) -> (0 < sd)%Q ->
  let u := uniforms_of n antithetic g in
  let x := shape_map (norm_ppf (PyFloat (FFinite mu)) (PyFloat (FFinite sd))) u in
  fst (vnorm (PyInt n) (PyFloat (FFinite mu)) (PyFloat (FFinite sd)) (PyInt s)
         (PyBool antithetic) as_dict t)
  = inr (if truthy as_dict
         then Dict [("u"%string, Uniforms u); ("x"%string, Inverted x)]
         else Variates x).
Proof.
  intros Hn Hs Hok Hlook Hsd u x.
  assert (valid_call n s t g) as Hcall by (constructor; assumption).
  rewrite (vnorm_valid n s mu sd antithetic as_dict t g Hcall Hsd).
  reflexivity.
Qed.

Lemma bind_lift_throw {B} (e : exn) (k : unit -> M G B) t :
  bind (lift (throw e)) k t = (inl e, t).
Proof. reflexivity. Qed.

Lemma flag_check_rejects (obj : pyobj) :
  flag_object obj = false -> _checkType obj (Ty T_bool) <> ok tt.
Proof. destruct obj; intros Hflag; try discriminate Hflag; discriminate. Qed.

(** Walk through the type checks: each passes, or stops the call with a
    [TypeError] or a [KeyError]. *)
Ltac walk_type_checks t :=
  repeat match goal with
         | |- exists e, _ /\ bind (lift (_checkType ?o ?ty)) ?k t = _ =>
             let Hc := fresh "Hc" in
             destruct (_checkType_outcomes o ty) as [Hc|[Hc|Hc]];
             [ first [ exfalso; eapply flag_check_rejects; eassumption
                     | rewrite (bind_lift_ok _ tt _ t Hc) ]
             | rewrite Hc, bind_lift_throw; exists TypeError; split; auto
             | rewrite Hc, bind_lift_throw; exists KeyError; split; auto ]
         end.

(** X19.  In [vunif], [vexp] and [vbinom] an [as_dict] that is not a [bool]
    always stops the call in the type checks, whatever the other arguments:
    the call raises [TypeError] or [KeyError] and the stream table is left
    as it was. *)
Theorem non_bool_as_dict_stops_call
    (n p1 p2 stream antithetic as_dict : pyobj) t :
  flag_object as_dict = false ->
  (exists e, (e = TypeError \/ e = KeyError) /\
     vunif n p1 p2 stream antithetic as_dict t = (inl e, t)) /\
  (exists e, (e = TypeError \/ e = KeyError) /\
     vexp n p1 stream antithetic as_dict t = (inl e, t)) /\
  (exists e, (e = TypeError \/ e = KeyError) /\
     vbinom n p1 p2 stream antithetic as_dict t = (inl e, t)).
Proof.
  intros Hflag. split; [|split].
  - unfold vunif. walk_type_checks t.
  - unfold vexp. walk_type_checks t.
  - unfold vbinom. walk_type_checks t.
Qed.


End VariateProperties.

(** * The claims on a running generator

    Each theorem above that has preconditions is applied here to the
    congruential generator of [Lcg]; the two claims that the code does not
    meet as worded get the inputs that show it. *)

Import Lcg.

Local Open Scope state_exn_scope.

Lemma valid_stream_0 : 0 <= 0 < numStreams.
Proof. unfold numStreams, _num_streams. lia. Defined.

Lemma unseeded_ok : table_ok unseeded.
Proof. reflexivity. Defined.

Lemma seeded_42 : seeded 42 = inr 42.
Proof. reflexivity. Defined.

Lemma seeded_table_42_ok : table_ok (seeded_table 42).
Proof. vm_compute. reflexivity. Defined.

Lemma seeded_table_42_first :
  seeded_table 42 !! Z.to_nat 0 = Some (Some (MkGenerator 42)).
Proof. vm_compute. reflexivity. Defined.

Lemma seeded_generation_repeats_witness :
  table_ok unseeded /\
  let run := (set_seed (PyInt 42) 0 ;; _generateUniforms 3 0 false) in
  fst (run (snd (run unseeded))) = fst (run unseeded).
Proof.
  split; [exact unseeded_ok|].
  pose proof (seeded_generation_repeats 42 0 0 0 3 false unseeded unseeded_ok)
    as Hrepeat.
  cbv zeta in Hrepeat. destruct Hrepeat as [Hrepeat _].
  cbv zeta. exact Hrepeat.
Defined.

Lemma set_seed_builds_jump_table_witness :
  table_ok unseeded /\ seeded 42 = inr 42 /\
  snd (rng_set_seed (Some 42) 0 unseeded) !! 0%nat
  = Some (Some (MkGenerator 42)) /\
  snd (rng_set_seed (Some 42) 0 unseeded) !! 1%nat
  = Some (Some (MkGenerator (jumped 42))).
Proof.
  split; [exact unseeded_ok|]. split; [exact seeded_42|].
  pose proof (set_seed_builds_jump_table 42 0 42 unseeded unseeded_ok seeded_42)
    as Hbuilt.
  cbv zeta in Hbuilt. destruct Hbuilt as (_ & _ & Hfirst & Hnext & _).
  split; [exact Hfirst|].
  apply (Hnext 0%nat (MkGenerator 42)); [vm_compute; lia|exact Hfirst].
Defined.

(** C2 as worded fails at the seed -1: numpy refuses a negative seed, so
    [set_seed(-1)] raises [ValueError], builds no root and fills no entry;
    the table still holds [None] in entry 0. *)
Lemma negative_seed_fills_no_table :
  seeded (-1) = inl ValueError /\
  rng_set_seed (Some (-1)) 0 unseeded = (inl ValueError, unseeded) /\
  set_seed (PyInt (-1)) 0 unseeded = (inl ValueError, unseeded) /\
  unseeded !! 0%nat = Some None.
Proof. repeat split; vm_compute; reflexivity. Qed.

Lemma antithetic_identity_witness :
  1 <= 3 /\ 0 <= 0 < numStreams /\ table_ok (seeded_table 42) /\
  exists plain anti : shape Q,
    fst (_generateUniforms 3 0 false (seeded_table 42)) = inr plain /\
    fst (_generateUniforms 3 0 true (seeded_table 42)) = inr anti /\
    length (values plain) = Z.to_nat 3 /\
    length (values anti) = Z.to_nat 3 /\
    (forall k : nat,
        values anti !! k = (fun u => (1 - u)%Q) <$> (values plain !! k)) /\
    snd (_generateUniforms 3 0 true (seeded_table 42))
    = snd (_generateUniforms 3 0 false (seeded_table 42)).
Proof.
  assert (1 <= 3) as Hn by lia.
  split; [exact Hn|]. split; [exact valid_stream_0|].
  split; [exact seeded_table_42_ok|].
  exact (antithetic_identity 3 0 (seeded_table 42) (MkGenerator 42) Hn
           valid_stream_0 seeded_table_42_ok seeded_table_42_first).
Defined.

Lemma range_errors_precede_draws_witness :
  bad_count_or_stream (PyInt 0) (PyInt 0) /\
  is_zero (PyInt 0) /\ exceeds_one (PyFloat (FFinite 1.5)) /\
  is_zero (PyFloat (FFinite 0)) /\
  vunif (PyInt 0) (PyFloat (FFinite 0)) (PyFloat (FFinite 1)) (PyInt 0)
    (PyBool false) (PyBool false) (seeded_table 42)
  = (inl ValueError, seeded_table 42) /\
  vexp (PyInt 1) (PyInt 0) (PyInt 0) (PyBool false) (PyBool false)
    (seeded_table 42)
  = (inl ValueError, seeded_table 42) /\
  vbinom (PyInt 1) (PyInt 10) (PyFloat (FFinite 1.5)) (PyInt 0)
    (PyBool false) (PyBool false) (seeded_table 42)
  = (inl ValueError, seeded_table 42) /\
  vnorm (PyInt 1) (PyFloat (FFinite 0)) (PyFloat (FFinite 0)) (PyInt 0)
    (PyBool false) (PyBool false) (seeded_table 42)
  = (inl ValueError, seeded_table 42).
Proof.
  assert (bad_count_or_stream (PyInt 0) (PyInt 0)) as Hn by (left; reflexivity).
  assert (is_zero (PyInt 0)) as Hrate
    by (exists (inject_Z 0); split; reflexivity).
  assert (exceeds_one (PyFloat (FFinite 1.5))) as Hprob by reflexivity.
  assert (is_zero (PyFloat (FFinite 0))) as Hsd
    by (exists 0%Q; split; reflexivity).
  repeat (split; [assumption|]).
  split; [|split; [|split]].
  - destruct (range_errors_precede_draws
                (PyInt 0) (PyInt 0) (PyBool false) (PyBool false)
                (PyFloat (FFinite 0)) (PyFloat (FFinite 1))
                (PyInt 1) (PyInt 10) (PyInt 1) (PyInt 0) (PyInt 1)
                (seeded_table 42)
                eq_refl eq_refl eq_refl eq_refl eq_refl eq_refl eq_refl
                eq_refl eq_refl eq_refl eq_refl) as (Hunif & _).
    exact (Hunif Hn).
  - destruct (range_errors_precede_draws
                (PyInt 1) (PyInt 0) (PyBool false) (PyBool false)
                (PyFloat (FFinite 0)) (PyFloat (FFinite 1))
                (PyInt 0) (PyInt 10) (PyInt 1) (PyInt 0) (PyInt 1)
                (seeded_table 42)
                eq_refl eq_refl eq_refl eq_refl eq_refl eq_refl eq_refl
                eq_refl eq_refl eq_refl eq_refl) as (_ & Hexp & _).
    exact (Hexp (or_intror Hrate)).
  - destruct (range_errors_precede_draws
                (PyInt 1) (PyInt 0) (PyBool false) (PyBool false)
                (PyFloat (FFinite 0)) (PyFloat (FFinite 1))
                (PyInt 1) (PyInt 10) (PyFloat (FFinite 1.5)) (PyInt 0) (PyInt 1)
                (seeded_table 42)
                eq_refl eq_refl eq_refl eq_refl eq_refl eq_refl eq_refl
                eq_refl eq_refl eq_refl eq_refl) as (_ & _ & Hbinom & _).
    exact (Hbinom (or_intror (or_intror Hprob))).
  - destruct (range_errors_precede_draws
                (PyInt 1) (PyInt 0) (PyBool false) (PyBool false)
                (PyFloat (FFinite 0)) (PyFloat (FFinite 1))
                (PyInt 1) (PyInt 10) (PyInt 1)
                (PyFloat (FFinite 0)) (PyFloat (FFinite 0)) (seeded_table 42)
                eq_refl eq_refl eq_refl eq_refl eq_refl eq_refl eq_refl
                eq_refl eq_refl eq_refl eq_refl) as (_ & _ & _ & Hnorm).
    exact (Hnorm (or_intror Hsd)).
Defined.

Lemma rng_uniform_subscript_witness :
  table_ok (seeded_table 42) /\
  (200 < - numStreams \/ numStreams <= 200) /\
  - numStreams <= -128 < 0 /\
  rng_uniform 0 1 200 (seeded_table 42) = (inl IndexError, seeded_table 42) /\
  rng_uniform 0 1 (-128) (seeded_table 42)
  = rng_uniform 0 1 (-128 + numStreams) (seeded_table 42).
Proof.
  assert (200 < - numStreams \/ numStreams <= 200) as Hout
    by (unfold numStreams, _num_streams; lia).
  assert (- numStreams <= -128 < 0) as Hneg
    by (unfold numStreams, _num_streams; lia).
  split; [exact seeded_table_42_ok|]. split; [exact Hout|].
  split; [exact Hneg|]. split.
  - exact (proj1 (rng_uniform_subscript 0 1 200 (seeded_table 42)
                    seeded_table_42_ok) Hout).
  - exact (proj2 (rng_uniform_subscript 0 1 (-128) (seeded_table 42)
                    seeded_table_42_ok) Hneg).
Defined.

(** C7 as worded fails at index -1: it lies outside [[0, numStreams()-1]],
    yet [rng.uniform] raises nothing and serves the draw from entry 127,
    whose generator it advances. *)
Lemma negative_subscript_is_served :
  ~ (0 <= -1 <= numStreams - 1) /\
  table_ok (seeded_table 42) /\
  (exists u : Q, fst (rng_uniform 0 1 (-1) (seeded_table 42)) = inr u) /\
  rng_uniform 0 1 (-1) (seeded_table 42) = rng_uniform 0 1 127 (seeded_table 42) /\
  snd (rng_uniform 0 1 (-1) (seeded_table 42)) !! 127%nat
  <> seeded_table 42 !! 127%nat.
Proof.
  split; [unfold numStreams, _num_streams; lia|].
  split; [exact seeded_table_42_ok|].
  split; [eexists; vm_compute; reflexivity|].
  split; [vm_compute; reflexivity|].
  vm_compute. discriminate.
Qed.

Lemma uniforms_range_witness :
  1 <= 3 /\ 0 <= 0 < numStreams /\ table_ok (seeded_table 42) /\
  (exists us : shape Q,
      fst (_generateUniforms 3 0 true (seeded_table 42)) = inr us /\
      length (values us) = Z.to_nat 3 /\
      Forall (fun u => (0 < u <= 1)%Q) (values us)) /\
  (exists us : shape Q,
      fst (_generateUniforms 3 0 false (seeded_table 42)) = inr us /\
      length (values us) = Z.to_nat 3 /\
      Forall (fun u => (0 <= u < 1)%Q) (values us)).
Proof.
  assert (1 <= 3) as Hn by lia.
  split; [exact Hn|]. split; [exact valid_stream_0|].
  split; [exact seeded_table_42_ok|]. split.
  - exact (uniforms_range 3 0 true (seeded_table 42) (MkGenerator 42) Hn
             valid_stream_0 seeded_table_42_ok seeded_table_42_first).
  - exact (uniforms_range 3 0 false (seeded_table 42) (MkGenerator 42) Hn
             valid_stream_0 seeded_table_42_ok seeded_table_42_first).
Defined.

(** C8 as worded fails for an antithetic draw: when the raw draw is 0.0, the
    lowest value the half-open interval allows, [_generateUniforms(1, 0,
    True)] returns [1 - 0.0 = 1.0], which is not below 1. *)
Lemma antithetic_draw_reaches_one :
  1 <= 1 /\ 0 <= 0 < numStreams /\ table_ok (seeded_table 0) /\
  seeded_table 0 !! 0%nat = Some (Some (MkGenerator 0)) /\
  fst (next_double 0) = 0 /\
  exists u : Q,
    fst (_generateUniforms 1 0 true (seeded_table 0)) = inr (Scalar u) /\
    (u == 1)%Q /\ ~ (0 <= u < 1)%Q.
Proof.
  split; [lia|]. split; [exact valid_stream_0|].
  split; [vm_compute; reflexivity|].
  split; [vm_compute; reflexivity|].
  split; [reflexivity|].
  eexists. split; [vm_compute; reflexivity|].
  split; [reflexivity|].
  intros [_ Hlt]. vm_compute in Hlt. discriminate Hlt.
Qed.

Lemma generation_frame_witness :
  1 <= 3 /\ 0 <= 0 < numStreams /\ table_ok (seeded_table 42) /\
  let t' := snd (_generateUniforms 3 0 true (seeded_table 42)) in
  t' !! Z.to_nat 0 = Some (Some (MkGenerator (advance_by (Z.to_nat 3) 42))) /\
  (forall j : nat, j <> Z.to_nat 0 -> t' !! j = seeded_table 42 !! j) /\
  length t' = length (seeded_table 42).
Proof.
  assert (1 <= 3) as Hn by lia.
  split; [exact Hn|]. split; [exact valid_stream_0|].
  split; [exact seeded_table_42_ok|].
  exact (generation_frame 3 0 true (seeded_table 42) (MkGenerator 42) Hn
           valid_stream_0 seeded_table_42_ok seeded_table_42_first).
Defined.



Lemma single_variate_record_holds_scalars_witness :
  table_ok (seeded_table 42) /\
  fst (vunif (PyInt 1) (PyFloat (FFinite 0)) (PyFloat (FFinite 1)) (PyInt 0)
         (PyBool false) (PyBool true) (seeded_table 42)) =
    inr (Dict
           [("u"%string, Uniforms (Scalar (unit_draw 42)));
            ("x"%string, Inverted (Scalar (FFinite (unit_draw 42))))]).
Proof.
  split; [exact seeded_table_42_ok|].
  exact (single_variate_record_holds_scalars (seeded_table 42) (MkGenerator 42)
           seeded_table_42_ok seeded_table_42_first).
Defined.

Lemma vnorm_skips_as_dict_check_witness :
  table_ok (seeded_table 42) /\
  fst (vnorm (PyInt 1) (PyFloat (FFinite 0)) (PyFloat (FFinite 1)) (PyInt 0)
         (PyBool false) (PyStr "yes") (seeded_table 42)) =
    inr (Dict
           [("u"%string, Uniforms (Scalar (unit_draw 42)));
            ("x"%string, Inverted (Scalar (FFinite (unit_draw 42))))]) /\
  snd (vnorm (PyInt 1) (PyFloat (FFinite 0)) (PyFloat (FFinite 1)) (PyInt 0)
         (PyBool false) (PyStr "yes") (seeded_table 42)) !! 0%nat
  = Some (Some (MkGenerator (advance 42))).
Proof.
  split; [exact seeded_table_42_ok|].
  pose proof (vnorm_skips_as_dict_check (seeded_table 42) (MkGenerator 42)
                seeded_table_42_ok seeded_table_42_first) as [Hrun _].
  rewrite Hrun. split; [reflexivity|].
  vm_compute. reflexivity.
Defined.

(** ** The further properties on a running generator *)

Lemma seeded_table_42_second :
  seeded_table 42 !! Z.to_nat 1 = Some (Some (MkGenerator 4294967338)).
Proof. vm_compute. reflexivity. Defined.

Lemma valid_stream_1 : 0 <= 1 < numStreams.
Proof. unfold numStreams, _num_streams. lia. Defined.

Lemma zero_le_one_Q : (0 <= 1)%Q.
Proof. unfold Qle. cbn. lia. Defined.

Lemma one_positive_Q : (0 < 1)%Q.
Proof. reflexivity. Defined.

Lemma two_positive_Q : (0 < 2)%Q.
Proof. reflexivity. Defined.

Lemma half_is_probability : (0 < 1 # 2 <= 1)%Q.
Proof. split; [reflexivity|]. unfold Qle. cbn. lia. Defined.

Lemma checkRange_passes_NaN_witness :
  ErrorChecks._checkRange (PyFloat FNaN) (Some (PyInt 0)) (Some (PyInt 1))
    false true = ok tt.
Proof.
  assert (forall lo, Some (PyInt 0) = Some lo -> real_object lo = true) as Hlo
    by (intros lo [= <-]; reflexivity).
  assert (forall hi, Some (PyInt 1) = Some hi -> real_object hi = true) as Hhi
    by (intros hi [= <-]; reflexivity).
  exact (checkRange_passes_NaN (Some (PyInt 0)) (Some (PyInt 1)) false true
           Hlo Hhi).
Defined.

Lemma no_draws_for_count_below_one_witness :
  0 <= 0 /\
  _generateUniforms 0 500 true (seeded_table 42)
  = (inr (Vector []), seeded_table 42).
Proof.
  assert (0 <= 0) as Hn by lia.
  split; [exact Hn|].
  exact (no_draws_for_count_below_one 0 500 true (seeded_table 42) Hn).
Defined.

Lemma failed_generation_draws_nothing_witness :
  fst (_generateUniforms 2 200 false (seeded_table 42)) = inl IndexError /\
  snd (_generateUniforms 2 200 false (seeded_table 42)) = seeded_table 42.
Proof.
  assert (fst (_generateUniforms 2 200 false (seeded_table 42)) = inl IndexError)
    as Hfail by (vm_compute; reflexivity).
  split; [exact Hfail|].
  pose proof (failed_generation_draws_nothing 2 200 false (seeded_table 42)
                IndexError Hfail) as [Hsame _].
  exact Hsame.
Defined.

Lemma batches_concatenate_witness :
  1 <= 2 /\ 1 <= 3 /\ table_ok (seeded_table 42) /\
  exists first second whole : shape Q,
    fst (_generateUniforms 2 0 true (seeded_table 42)) = inr first /\
    fst (_generateUniforms 3 0 true
           (snd (_generateUniforms 2 0 true (seeded_table 42)))) = inr second /\
    fst (_generateUniforms (2 + 3) 0 true (seeded_table 42)) = inr whole /\
    values whole = values first ++ values second /\
    snd (_generateUniforms 3 0 true
           (snd (_generateUniforms 2 0 true (seeded_table 42))))
    = snd (_generateUniforms (2 + 3) 0 true (seeded_table 42)).
Proof.
  assert (1 <= 2) as Hm by lia.
  assert (1 <= 3) as Hn by lia.
  split; [exact Hm|]. split; [exact Hn|]. split; [exact seeded_table_42_ok|].
  exact (batches_concatenate 2 3 0 true (seeded_table 42) (MkGenerator 42)
           Hm Hn valid_stream_0 seeded_table_42_ok seeded_table_42_first).
Defined.

Lemma distinct_streams_commute_witness :
  0 <> 1 /\ table_ok (seeded_table 42) /\
  snd (_generateUniforms 3 1 true
         (snd (_generateUniforms 2 0 false (seeded_table 42))))
  = snd (_generateUniforms 2 0 false
           (snd (_generateUniforms 3 1 true (seeded_table 42)))).
Proof.
  assert (1 <= 2) as Hm by lia.
  assert (1 <= 3) as Hn by lia.
  assert (0 <> 1) as Hneq by lia.
  split; [exact Hneq|]. split; [exact seeded_table_42_ok|].
  pose proof (distinct_streams_commute 2 3 0 1 false true (seeded_table 42)
                (MkGenerator 42) (MkGenerator 4294967338) Hm Hn
                valid_stream_0 valid_stream_1 Hneq seeded_table_42_ok
                seeded_table_42_first seeded_table_42_second) as Hcommute.
  cbv zeta in Hcommute. destruct Hcommute as (_ & _ & Htables).
  exact Htables.
Defined.

Lemma unseeded_draw_raises_witness :
  1 <= 2 /\ - numStreams <= -1 < numStreams /\
  _generateUniforms 2 (-1) false unseeded = (inl AttributeError, unseeded).
Proof.
  assert (1 <= 2) as Hn by lia.
  assert (- numStreams <= -1 < numStreams) as Hi
    by (unfold numStreams, _num_streams; lia).
  split; [exact Hn|]. split; [exact Hi|].
  exact (unseeded_draw_raises (G := Z) 2 (-1) false Hn Hi).
Defined.

Lemma failed_set_seed_keeps_table_witness :
  table_ok (seeded_table 42) /\
  fst (set_seed (PyInt (-1)) 0 (seeded_table 42)) = inl ValueError /\
  snd (set_seed (PyInt (-1)) 0 (seeded_table 42)) = seeded_table 42.
Proof.
  assert (fst (set_seed (PyInt (-1)) 0 (seeded_table 42)) = inl ValueError)
    as Hfail by (vm_compute; reflexivity).
  split; [exact seeded_table_42_ok|]. split; [exact Hfail|].
  pose proof (failed_set_seed_keeps_table (PyInt (-1)) 0 (seeded_table 42)
                ValueError seeded_table_42_ok) as [_ Hkeeps].
  exact (Hkeeps Hfail).
Defined.

Lemma table_size_is_kept_witness :
  table_ok (seeded_table 42) /\
  table_ok (snd (set_seed (PyInt 7) 0 (seeded_table 42))) /\
  table_ok (snd (vexp (PyInt 3) (PyFloat (FFinite 2)) (PyInt 0)
                   (PyBool false) (PyBool false) (seeded_table 42))).
Proof.
  split; [exact seeded_table_42_ok|].
  pose proof (table_size_is_kept (PyInt 7) (PyInt 3) PyNone (PyInt 0)
                (PyBool false) (PyBool false) (PyFloat (FFinite 2)) PyNone
                0 1 0 false (seeded_table 42) seeded_table_42_ok)
    as (Hseed & _ & _ & Hexp & _).
  split; [exact Hseed|exact Hexp].
Defined.

Lemma several_variates_in_draw_order_witness :
  1 < 3 /\ table_ok (seeded_table 42) /\
  fst (vexp (PyInt 3) (PyFloat (FFinite 2)) (PyInt 0)
         (PyBool true) (PyBool true) (seeded_table 42))
  = ok (several_delivered true (expon_ppf (PyFloat (FFinite 2)))
          (complement true <$> raw_draws (Z.to_nat 3) 42)).
Proof.
  assert (1 < 3) as Hn by lia.
  assert (0 <= 10) as Hsize by lia.
  split; [exact Hn|]. split; [exact seeded_table_42_ok|].
  assert (binom_ppf (PyInt 10) (PyFloat (FFinite (1 # 2)))
          = inr (fun _ : Q => 0)) as Hq by reflexivity.
  pose proof (several_variates_in_draw_order 3 0 10 0 1 2 0 1 (1 # 2)
                (fun _ : Q => 0) true true
                (seeded_table 42) 42 Hn valid_stream_0 seeded_table_42_ok
                seeded_table_42_first zero_le_one_Q two_positive_Q
                one_positive_Q Hsize half_is_probability Hq) as Hseveral.
  cbv zeta in Hseveral. destruct Hseveral as (_ & _ & Hexp & _).
  exact Hexp.
Defined.

Lemma variates_advance_one_stream_witness :
  1 <= 3 /\ table_ok (seeded_table 42) /\
  snd (vbinom (PyInt 3) (PyInt 10) (PyFloat (FFinite (1 # 2))) (PyInt 0)
         (PyBool false) (PyBool false) (seeded_table 42))
  = <[Z.to_nat 0 := Some (MkGenerator (advance_by (Z.to_nat 3) 42))]>
      (seeded_table 42).
Proof.
  assert (1 <= 3) as Hn by lia.
  assert (0 <= 10) as Hsize by lia.
  split; [exact Hn|]. split; [exact seeded_table_42_ok|].
  pose proof (variates_advance_one_stream 3 0 10 0 1 2 0 1 (1 # 2) false false
                (seeded_table 42) 42 Hn valid_stream_0 seeded_table_42_ok
                seeded_table_42_first zero_le_one_Q two_positive_Q
                one_positive_Q Hsize half_is_probability) as Hadvance.
  cbv zeta in Hadvance. destruct Hadvance as (_ & _ & _ & _ & Hbinom).
  exact Hbinom.
Defined.

Lemma negative_parameters_raise_witness :
  num_lt (PyInt (-3)) (PyInt 0) = true /\
  num_lt (PyFloat (FFinite 1)) (PyFloat (FFinite 2)) = true /\
  vbinom (PyInt 1) (PyInt (-3)) (PyFloat (FFinite (1 # 2))) (PyInt 0)
    (PyBool false) (PyBool false) (seeded_table 42)
  = (inl ValueError, seeded_table 42) /\
  vunif (PyInt 1) (PyFloat (FFinite 2)) (PyFloat (FFinite 1)) (PyInt 0)
    (PyBool false) (PyBool false) (seeded_table 42)
  = (inl ValueError, seeded_table 42).
Proof.
  assert (num_lt (PyInt (-3)) (PyInt 0) = true) as Hsize by reflexivity.
  assert (num_lt (PyFloat (FFinite 1)) (PyFloat (FFinite 2)) = true) as Hbounds
    by reflexivity.
  split; [exact Hsize|]. split; [exact Hbounds|].
  pose proof (negative_parameters_raise
                (PyInt 1) (PyInt 0) (PyBool false) (PyBool false)
                (PyFloat (FFinite 2)) (PyFloat (FFinite 1))
                (PyInt 1) (PyInt (-3)) (PyFloat (FFinite (1 # 2)))
                (PyInt 0) (PyInt 1) (seeded_table 42)
                eq_refl eq_refl eq_refl eq_refl eq_refl eq_refl eq_refl
                eq_refl eq_refl eq_refl eq_refl)
    as (Hunif & _ & Hbinom & _).
  split; [exact (Hbinom (or_introl Hsize))|exact (Hunif Hbounds)].
Defined.

Lemma vnorm_takes_any_as_dict_witness :
  1 <= 2 /\ table_ok (seeded_table 42) /\
  fst (vnorm (PyInt 2) (PyFloat (FFinite 0)) (PyFloat (FFinite 1)) (PyInt 0)
         (PyBool false) PyNone (seeded_table 42))
  = inr (Variates
           (shape_map (norm_ppf (PyFloat (FFinite 0)) (PyFloat (FFinite 1)))
              (uniforms_of 2 false 42))).
Proof.
  assert (1 <= 2) as Hn by lia.
  split; [exact Hn|]. split; [exact seeded_table_42_ok|].
  pose proof (vnorm_takes_any_as_dict 2 0 0 1 false PyNone (seeded_table 42) 42
                Hn valid_stream_0 seeded_table_42_ok seeded_table_42_first
                one_positive_Q) as Hnorm.
  cbv zeta in Hnorm. exact Hnorm.
Defined.

Lemma non_bool_as_dict_stops_call_witness :
  flag_object (PyInt 1) = false /\
  exists e, (e = TypeError \/ e = KeyError) /\
    vexp (PyInt 1) (PyFloat (FFinite 2)) (PyInt 0) (PyBool false) (PyInt 1)
      (seeded_table 42) = (inl e, seeded_table 42).
Proof.
  assert (flag_object (PyInt 1) = false) as Hflag by reflexivity.
  split; [exact Hflag|].
  pose proof (non_bool_as_dict_stops_call (PyInt 1) (PyFloat (FFinite 2)) PyNone
                (PyInt 0) (PyBool false) (PyInt 1) (seeded_table 42) Hflag)
    as (_ & Hexp & _).
  exact Hexp.
Defined.

